(** * ReelDL native messaging host: a shallow embedding of
      [reeldl_native_host.py] and the properties of its framing channel and
      request dispatcher.

    The host reads length-prefixed JSON messages from standard input,
    launches [yt-dlp] for a [download] action and writes one
    length-prefixed JSON response per message to standard output.

    Python values are modelled as follows.
    - [str] is a sequence of Unicode code points ([list N]);
    - [bytes] is [list byte];
    - a [dict] is an association list in insertion order;
    - an exception is a constructor of [exn], carried by [outcome];
    - the process (standard streams, operating system, child processes)
      is threaded explicitly through the monad [M].
    The [json] and [os]/[subprocess] modules are not part of the program:
    they are parameters ([json_module], [os_module]).  A reference
    instance of each is given at the end of the definitions so that the
    program can be run on concrete byte streams. *)

From Stdlib Require Import List NArith ZArith Lia Bool Ascii String.
From Stdlib Require Import Strings.Byte.
From Stdlib Require Floats.SpecFloat DecimalString.
Import ListNotations.

Local Open Scope N_scope.
#[local] Set Warnings "-register-all".

(** ** Python strings and bytes *)

(** A Python [str]: a sequence of code points. *)
Definition str := list N.

(** A Python [bytes] object. *)
Definition bytes := list byte.

(** The [str] denoted by an ASCII literal of the source. *)
Definition py (s : string) : str :=
  List.map N_of_ascii (list_ascii_of_string s).

Fixpoint str_eqb (a b : str) : bool :=
  match a, b with
  | [], [] => true
  | x :: a', y :: b' => (x =? y) && str_eqb a' b'
  | _, _ => false
  end.

(** [len(x)] as a Python integer. *)
Definition len {A} (l : list A) : N := N.of_nat (List.length l).
Arguments len : simpl never.

(** The characters [str.strip()] removes: those for which CPython's
    [Py_UNICODE_ISSPACE] holds. *)
Definition is_whitespace (c : N) : bool :=
  ((9 <=? c) && (c <=? 13)) || ((28 <=? c) && (c <=? 32))
  || (c =? 133) || (c =? 160) || (c =? 5760)
  || ((8192 <=? c) && (c <=? 8202))
  || (c =? 8232) || (c =? 8233) || (c =? 8239) || (c =? 8287)
  || (c =? 12288).

Fixpoint lstrip (s : str) : str :=
  match s with
  | [] => []
  | c :: s' => if is_whitespace c then lstrip s' else s
  end.

Definition rstrip (s : str) : str := rev (lstrip (rev s)).

(** [s.strip()] *)
Definition strip (s : str) : str := rstrip (lstrip s).

(** A blank string: empty, or made of whitespace only. *)
Definition blank (s : str) : bool := forallb is_whitespace s.

(** Truth value of a [str]: the empty string is false. *)
Definition str_truthy (s : str) : bool :=
  match s with [] => false | _ :: _ => true end.

(** [a or b] on strings. *)
Definition str_or (a b : str) : str := if str_truthy a then a else b.

(** [part in whole] *)
Definition includes (part whole : str) : Prop :=
  exists before after, whole = before ++ part ++ after.

(** ** Exceptions *)

(** The exceptions of Python the program can meet.  [Unmodelled] is not one
    of them: the reference [json] module below raises it on the finite
    floating-point numbers, which it does not cover. *)

Inductive exn : Type :=
| OverflowError
| UnicodeEncodeError
| UnicodeDecodeError
| JSONDecodeError
| AttributeError
| ValueError
| RecursionError
| PermissionError
| Unmodelled.

Inductive outcome (A : Type) : Type :=
| Return (a : A)
| Raise (e : exn).
Arguments Return {A} a.
Arguments Raise {A} e.

(** ** Integers and bytes *)

Definition byte_of_N (n : N) : byte :=
  match Byte.of_N n with Some b => b | None => x00 end.

(** [int.from_bytes(raw, byteorder="little")] *)
Fixpoint from_bytes_little (raw : bytes) : N :=
  match raw with
  | [] => 0
  | b :: raw' => Byte.to_N b + 256 * from_bytes_little raw'
  end.

Fixpoint little_digits (length : nat) (n : N) : bytes :=
  match length with
  | O => []
  | S length' => byte_of_N (n mod 256) :: little_digits length' (n / 256)
  end.

(** [n.to_bytes(length, byteorder="little")] for [n >= 0]: raises
    [OverflowError] when [n] does not fit in [length] bytes. *)
Definition to_bytes_little (n : N) (length : nat) : outcome bytes :=
  if n <? 256 ^ N.of_nat length then Return (little_digits length n)
  else Raise OverflowError.

(** A message on the wire: the length of [body] on four bytes, least
    significant first, then [body]. *)
Definition frame (body : bytes) : bytes :=
  little_digits 4 (len body) ++ body.

(** ** UTF-8 *)

Module Utf8.

(** One code point to its UTF-8 bytes; [None] for a surrogate (or a number
    that is no code point), which the strict codec refuses. *)
Definition encode_char (c : N) : option bytes :=
  if c <? 128 then Some [byte_of_N c]
  else if c <? 2048 then
    Some [byte_of_N (192 + c / 64); byte_of_N (128 + c mod 64)]
  else if c <? 65536 then
    if (55296 <=? c) && (c <=? 57343) then None
    else Some [byte_of_N (224 + c / 4096);
               byte_of_N (128 + (c / 64) mod 64);
               byte_of_N (128 + c mod 64)]
  else if c <? 1114112 then
    Some [byte_of_N (240 + c / 262144);
          byte_of_N (128 + (c / 4096) mod 64);
          byte_of_N (128 + (c / 64) mod 64);
          byte_of_N (128 + c mod 64)]
  else None.

(** [s.encode("utf-8")] *)
Fixpoint encode (s : str) : outcome bytes :=
  match s with
  | [] => Return []
  | c :: s' =>
      match encode_char c, encode s' with
      | Some bs, Return rest => Return (bs ++ rest)
      | _, _ => Raise UnicodeEncodeError
      end
  end.

(** A continuation byte [10xxxxxx]. *)
Definition continuation (b : byte) : bool :=
  (128 <=? Byte.to_N b) && (Byte.to_N b <? 192).

Definition payload (b : byte) : N := Byte.to_N b - 128.

(** [b.decode("utf-8")]: strict, so overlong forms, surrogates, code points
    above U+10FFFF and stray or missing continuation bytes raise. *)
Fixpoint decode (bs : bytes) : outcome str :=
  let cons_char (c : N) (rest : outcome str) : outcome str :=
    match rest with
    | Return s => Return (c :: s)
    | Raise e => Raise e
    end in
  match bs with
  | [] => Return []
  | b0 :: r0 =>
      let n0 := Byte.to_N b0 in
      if n0 <? 128 then cons_char n0 (decode r0)
      else if n0 <? 192 then Raise UnicodeDecodeError
      else if n0 <? 224 then
        match r0 with
        | b1 :: r1 =>
            let c := (n0 - 192) * 64 + payload b1 in
            if continuation b1 && (128 <=? c)
            then cons_char c (decode r1)
            else Raise UnicodeDecodeError
        | _ => Raise UnicodeDecodeError
        end
      else if n0 <? 240 then
        match r0 with
        | b1 :: b2 :: r2 =>
            let c := (n0 - 224) * 4096 + payload b1 * 64 + payload b2 in
            if continuation b1 && continuation b2 && (2048 <=? c)
               && negb ((55296 <=? c) && (c <=? 57343))
            then cons_char c (decode r2)
            else Raise UnicodeDecodeError
        | _ => Raise UnicodeDecodeError
        end
      else if n0 <? 248 then
        match r0 with
        | b1 :: b2 :: b3 :: r3 =>
            let c := (n0 - 240) * 262144 + payload b1 * 4096
                     + payload b2 * 64 + payload b3 in
            if continuation b1 && continuation b2 && continuation b3
               && (65536 <=? c) && (c <? 1114112)
            then cons_char c (decode r3)
            else Raise UnicodeDecodeError
        | _ => Raise UnicodeDecodeError
        end
      else Raise UnicodeDecodeError
  end.

End Utf8.

(** ** Python values handled by the host *)

(** What [json.loads] can return, which is also what the host passes to
    [json.dumps].  A [float] is carried by its IEEE 754 datum. *)
Inductive value : Type :=
| PNone
| PBool (b : bool)
| PInt (n : Z)
| PFloat (x : SpecFloat.spec_float)
| PStr (s : str)
| PList (items : list value)
| PDict (entries : list (str * value)).

Definition dict := list (str * value).

(** [d.get(key)] on a [dict]: [None] when the key is absent. *)
Fixpoint dict_get (d : dict) (key : str) : value :=
  match d with
  | [] => PNone
  | (k, v) :: d' => if str_eqb k key then v else dict_get d' key
  end.

(** [key in d] *)
Fixpoint dict_has (d : dict) (key : str) : bool :=
  match d with
  | [] => false
  | (k, _) :: d' => str_eqb k key || dict_has d' key
  end.

(** [x.get(key)] on any value: only a [dict] has the method. *)
Definition py_get (x : value) (key : str) : outcome value :=
  match x with
  | PDict d => Return (dict_get d key)
  | _ => Raise AttributeError
  end.

(** [x is None] *)
Definition is_None (x : value) : bool :=
  match x with PNone => true | _ => false end.

(** [x == s] for a string literal [s]. *)
Definition eq_str (x : value) (s : str) : bool :=
  match x with PStr t => str_eqb t s | _ => false end.

(** The dict display [{"status": status, "message": message}]. *)
Definition response (status message : str) : value :=
  PDict [(py "status", PStr status); (py "message", PStr message)].

(** ** The modules the host imports *)

(** [json]: [json.dumps(payload)] with the default options on a [value],
    and [json.loads(text)]. *)
Record json_module : Type := {
  json_dumps : value -> outcome str;
  json_loads : str -> outcome value
}.

(** The keyword arguments of one [subprocess.run] call. *)
Record run_call : Type := {
  args : list str;
  cwd : str;
  capture_output : bool;
  text : bool
}.

(** [subprocess.CompletedProcess] of a call that captured text. *)
Record completed_process : Type := {
  returncode : Z;
  stdout_text : str;
  stderr_text : str
}.

(** [os], [os.path] and [subprocess], over a state [world] of the machine
    (file system, network, ...) that a child process may change.
    [subprocess_run] is a call of [subprocess.run] that returns the
    completed process or raises: [ValueError] for a NUL character in an
    argument, [PermissionError] or another [OSError] when the file cannot
    be executed, [UnicodeDecodeError] when the captured output is not
    text.  The host sets no timeout, so a child that never completes keeps
    the host waiting for ever; such calls are not described.
    [host_directory] is [os.path.dirname(os.path.abspath(__file__))]. *)
Record os_module : Type := {
  world : Type;
  os_name : str;
  os_path_join : str -> str -> str;
  os_path_exists : world -> str -> bool;
  subprocess_run : world -> run_call -> outcome completed_process * world;
  host_directory : str
}.

(** The response of a download whose child has completed. *)
Definition run_reply (completed : completed_process) : value :=
  if (returncode completed =? 0)%Z then
    response (py "ok") (py "yt-dlp finished downloading the reel.")
  else
    response (py "error")
      (str_or (str_or (strip (stderr_text completed))
                      (strip (stdout_text completed)))
              (py "yt-dlp failed with an unknown error.")).

(** ** The process and its monad *)

Section Host.

Variable json : json_module.
Variable os : os_module.

(** The host process: what is left to read on standard input, what the
    peer has received on standard output, what is written but not yet
    flushed, the machine, and the calls of [subprocess.run] made so far
    (oldest first). *)
Record process : Type := {
  stdin : bytes;
  stdout : bytes;
  stdout_buffer : bytes;
  machine : world os;
  children : list run_call
}.

Definition M (A : Type) : Type := process -> outcome A * process.

Definition ret {A} (a : A) : M A := fun p => (Return a, p).

Definition bind {A B} (m : M A) (k : A -> M B) : M B :=
  fun p =>
    match m p with
    | (Return a, p') => k a p'
    | (Raise e, p') => (Raise e, p')
    end.

(** A pure computation that may raise. *)
Definition lift {A} (o : outcome A) : M A := fun p => (o, p).

Notation "x <- m ;; k" := (bind m (fun x => k))
  (at level 61, m at next level, right associativity).
Notation "m ;;; k" := (bind m (fun _ => k))
  (at level 61, right associativity).

Fixpoint take {A} (n : N) (l : list A) : list A :=
  match l with
  | [] => []
  | x :: l' => if n =? 0 then [] else x :: take (N.pred n) l'
  end.

Fixpoint drop {A} (n : N) (l : list A) : list A :=
  match l with
  | [] => []
  | x :: l' => if n =? 0 then l else drop (N.pred n) l'
  end.

(** The process after its input was read down to [input]. *)
Definition with_stdin (p : process) (input : bytes) : process :=
  {| stdin := input; stdout := stdout p; stdout_buffer := stdout_buffer p;
     machine := machine p; children := children p |}.

(** The process after [data] was written and flushed. *)
Definition having_written (p : process) (data : bytes) : process :=
  {| stdin := stdin p; stdout := stdout p ++ stdout_buffer p ++ data;
     stdout_buffer := []; machine := machine p; children := children p |}.

(** [sys.stdin.buffer.read(n)]: [n] bytes, or all that is left when the
    stream ends before. *)
Definition stdin_read (n : N) : M bytes :=
  fun p => (Return (take n (stdin p)), with_stdin p (drop n (stdin p))).

(** [sys.stdout.buffer.write(data)] *)
Definition stdout_write (data : bytes) : M unit :=
  fun p => (Return tt,
            {| stdin := stdin p; stdout := stdout p;
               stdout_buffer := stdout_buffer p ++ data;
               machine := machine p; children := children p |}).

(** [sys.stdout.buffer.flush()] *)
Definition stdout_flush : M unit :=
  fun p => (Return tt,
            {| stdin := stdin p; stdout := stdout p ++ stdout_buffer p;
               stdout_buffer := [];
               machine := machine p; children := children p |}).

(** [os.path.exists(path)] *)
Definition path_exists (path : str) : M bool :=
  fun p => (Return (os_path_exists os (machine p) path), p).

(** [subprocess.run(command, cwd=..., capture_output=True, text=True)]:
    runs the child to completion and returns what it left, or raises. *)
Definition run (call : run_call) : M completed_process :=
  fun p =>
    let (result, machine') := subprocess_run os (machine p) call in
    (result,
     {| stdin := stdin p; stdout := stdout p;
        stdout_buffer := stdout_buffer p;
        machine := machine'; children := children p ++ [call] |}).

(** ** The program *)

Definition read_native_message : M value :=
  raw_length <- stdin_read 4 ;;
  if len raw_length <? 4 then ret PNone
  else
    let message_length := from_bytes_little raw_length in
    if message_length =? 0 then ret PNone
    else
      message_bytes <- stdin_read message_length ;;
      if len message_bytes <? message_length then ret PNone
      else
        decoded <- lift (Utf8.decode message_bytes) ;;
        lift (json_loads json decoded).

Definition send_native_message (payload : value) : M unit :=
  dumped <- lift (json_dumps json payload) ;;
  encoded_payload <- lift (Utf8.encode dumped) ;;
  length_prefix <- lift (to_bytes_little (len encoded_payload) 4) ;;
  stdout_write length_prefix ;;;
  stdout_write encoded_payload ;;;
  stdout_flush.

Definition resolve_yt_dlp_path (script_directory : str) : str :=
  let executable_name :=
    if str_eqb (os_name os) (py "nt") then py "yt-dlp.exe" else py "yt-dlp" in
  os_path_join os script_directory executable_name.

Definition build_yt_dlp_command (yt_dlp_path page_url : str) : list str :=
  [yt_dlp_path; py "--cookies-from-browser"; py "chrome"; page_url].

Definition missing_page_url : value :=
  response (py "error") (py "Missing page URL for yt-dlp.").

Definition handle_download_request (message : value) (script_directory : str)
  : M value :=
  page_url <- lift (py_get message (py "pageUrl")) ;;
  match page_url with
  | PStr page_url =>
      if negb (str_truthy (strip page_url)) then ret missing_page_url
      else
        let yt_dlp_path := resolve_yt_dlp_path script_directory in
        found <- path_exists yt_dlp_path ;;
        if negb found then
          ret (response (py "error")
                 (py "yt-dlp was not found at " ++ yt_dlp_path ++ py "."))
        else
          let yt_dlp_command := build_yt_dlp_command yt_dlp_path page_url in
          completed_process <-
            run {| args := yt_dlp_command; cwd := script_directory;
                   capture_output := true; text := true |} ;;
          if negb (returncode completed_process =? 0)%Z then
            let error_output :=
              str_or (strip (stderr_text completed_process))
                     (strip (stdout_text completed_process)) in
            ret (response (py "error")
                   (str_or error_output
                      (py "yt-dlp failed with an unknown error.")))
          else
            ret (response (py "ok") (py "yt-dlp finished downloading the reel."))
  | _ => ret missing_page_url
  end.

(** The body of the loop of [run_native_host] after a message was read,
    in two parts: [dispatch] computes the response (the [if] on the
    action), [answer] computes it and sends it. *)
Definition unknown_action : value :=
  response (py "error") (py "Unknown action received.").

Definition dispatch (incoming_message : value) (script_directory : str)
  : M value :=
  action <- lift (py_get incoming_message (py "action")) ;;
  if eq_str action (py "download")
  then handle_download_request incoming_message script_directory
  else ret unknown_action.

Definition answer (incoming_message : value) (script_directory : str)
  : M unit :=
  response <- dispatch incoming_message script_directory ;;
  send_native_message response.

(** The [while True] loop, unrolled at most [fuel] times; [None] when the
    loop is still running after that. *)
Fixpoint host_loop (fuel : nat) (script_directory : str)
  : process -> option (outcome unit * process) :=
  fun p =>
    match fuel with
    | O => None
    | S fuel' =>
        match read_native_message p with
        | (Raise e, p') => Some (Raise e, p')
        | (Return incoming_message, p') =>
            if is_None incoming_message then Some (Return tt, p')
            else
              match answer incoming_message script_directory p' with
              | (Raise e, p'') => Some (Raise e, p'')
              | (Return _, p'') => host_loop fuel' script_directory p''
              end
        end
    end.

(** [run_native_host()]: every turn of the loop that does not leave it
    consumes input, so the length of the input bounds the turns. *)
Definition run_native_host (p : process) : option (outcome unit * process) :=
  let script_directory := host_directory os in
  host_loop (S (List.length (stdin p))) script_directory p.

(** The [subprocess.run] call of a download of [page_url] by a host in
    [script_directory]. *)
Definition yt_dlp_call (script_directory page_url : str) : run_call :=
  {| args := build_yt_dlp_command (resolve_yt_dlp_path script_directory)
               page_url;
     cwd := script_directory; capture_output := true; text := true |}.

(** The process after the [subprocess.run] of [call] has returned or
    raised. *)
Definition having_run (p : process) (call : run_call) : process :=
  {| stdin := stdin p; stdout := stdout p; stdout_buffer := stdout_buffer p;
     machine := snd (subprocess_run os (machine p) call);
     children := children p ++ [call] |}.

(** A child process the host may run: the downloader next to the host, in
    the host's directory, on a page URL that is not blank. *)
Definition is_yt_dlp_call (script_directory : str) (call : run_call) : Prop :=
  exists page_url,
    blank page_url = false /\ call = yt_dlp_call script_directory page_url.

(** ** Writing and reading several messages *)

(** [send_native_message] on each message in turn. *)
Fixpoint send_all (messages : list value) : M unit :=
  match messages with
  | [] => ret tt
  | message :: messages' =>
      send_native_message message ;;; send_all messages'
  end.

(** The results of [count] calls of [read_native_message] in turn. *)
Fixpoint read_all (count : nat) : M (list value) :=
  match count with
  | O => ret []
  | S count' =>
      message <- read_native_message ;;
      messages <- read_all count' ;;
      ret (message :: messages)
  end.

(** A process about to read [input], on the machine [w], that has written
    nothing and run no child. *)
Definition start (input : bytes) (w : world os) : process :=
  {| stdin := input; stdout := []; stdout_buffer := [];
     machine := w; children := [] |}.

(** [json.dumps(m)] is a text, of UTF-8 bytes [body], which [json.loads]
    reads back as [m]. *)
Definition json_round_trips (m : value) (body : bytes) : Prop :=
  exists text,
    json_dumps json m = Return text /\
    json_loads json text = Return m /\
    Utf8.encode text = Return body /\
    body <> [].

(** A message that [json] round-trips and whose encoding fits the four
    bytes of the prefix. *)
Definition frameable (m : value) : Prop :=
  exists body, json_round_trips m body /\ len body < 4294967296.

(** Writing the messages from a fresh process succeeds, and a process that
    reads what was written gets the same messages in the same order, and
    has then read everything. *)
Definition framing_round_trip (messages : list value) : Prop :=
  forall w : world os,
    exists written : process,
      send_all messages (start [] w) = (Return tt, written) /\
      read_all (List.length messages) (start (stdout written) w)
      = (Return messages, start [] w).

End Host.

Arguments stdin {os} p.
Arguments stdout {os} p.
Arguments stdout_buffer {os} p.
Arguments machine {os} p.
Arguments children {os} p.
Arguments with_stdin {os} p input.
Arguments having_written {os} p data.
Arguments having_run {os} p call.
Arguments start {os} input w.

(** ** A reference [json] module

    [MiniJson] follows CPython's [json.dumps] (default options: separators
    [", "] and [": "], [ensure_ascii]) and [json.loads] on the JSON texts
    and values without finite floating-point numbers; on those it raises
    [Unmodelled].  It has neither CPython's limit on the digits of an
    integer nor its limit on the depth of nesting.  It serves to run the
    host on concrete byte streams. *)

Module MiniJson.

Import SpecFloat.

Definition decimal (n : N) : str :=
  py (DecimalString.NilEmpty.string_of_uint (N.to_uint n)).

Definition hex_digit (d : N) : N := if d <? 10 then 48 + d else 87 + d.

(** The four lower-case hexadecimal digits of [c < 65536]. *)
Definition hex4 (c : N) : str :=
  [hex_digit ((c / 4096) mod 16); hex_digit ((c / 256) mod 16);
   hex_digit ((c / 16) mod 16); hex_digit (c mod 16)].

(** One character inside a JSON string: printable ASCII but the quote and
    the backslash stands for itself, the rest is escaped. *)
Definition escape (c : N) : str :=
  if c =? 34 then [92; 34]
  else if c =? 92 then [92; 92]
  else if c =? 10 then [92; 110]
  else if c =? 13 then [92; 114]
  else if c =? 9 then [92; 116]
  else if c =? 8 then [92; 98]
  else if c =? 12 then [92; 102]
  else if (32 <=? c) && (c <=? 126) then [c]
  else if c <? 65536 then [92; 117] ++ hex4 c
  else
    let v := c - 65536 in
    [92; 117] ++ hex4 (55296 + (v / 1024) mod 1024)
    ++ [92; 117] ++ hex4 (56320 + v mod 1024).

Definition quote (s : str) : str := [34] ++ flat_map escape s ++ [34].

Fixpoint join (separator : str) (parts : list str) : str :=
  match parts with
  | [] => []
  | [part] => part
  | part :: parts' => part ++ separator ++ join separator parts'
  end.

Definition dumps_float (x : spec_float) : outcome str :=
  match x with
  | S754_nan => Return (py "NaN")
  | S754_infinity false => Return (py "Infinity")
  | S754_infinity true => Return (py "-Infinity")
  | S754_zero false => Return (py "0.0")
  | S754_zero true => Return (py "-0.0")
  | S754_finite _ _ _ => Raise Unmodelled
  end.

Definition dumps_int (n : Z) : str :=
  match n with
  | Z0 => py "0"
  | Zpos p => decimal (Npos p)
  | Zneg p => py "-" ++ decimal (Npos p)
  end.

(** [json.dumps(v)] *)
Fixpoint dumps (v : value) : outcome str :=
  match v with
  | PNone => Return (py "null")
  | PBool true => Return (py "true")
  | PBool false => Return (py "false")
  | PInt n => Return (dumps_int n)
  | PFloat x => dumps_float x
  | PStr s => Return (quote s)
  | PList items =>
      let fix each (items : list value) : outcome (list str) :=
        match items with
        | [] => Return []
        | item :: items' =>
            match dumps item, each items' with
            | Return part, Return parts => Return (part :: parts)
            | Raise e, _ => Raise e
            | _, Raise e => Raise e
            end
        end in
      match each items with
      | Return parts => Return (py "[" ++ join (py ", ") parts ++ py "]")
      | Raise e => Raise e
      end
  | PDict entries =>
      let fix each (entries : list (str * value)) : outcome (list str) :=
        match entries with
        | [] => Return []
        | (key, item) :: entries' =>
            match dumps item, each entries' with
            | Return part, Return parts =>
                Return ((quote key ++ py ": " ++ part) :: parts)
            | Raise e, _ => Raise e
            | _, Raise e => Raise e
            end
        end in
      match each entries with
      | Return parts => Return (py "{" ++ join (py ", ") parts ++ py "}")
      | Raise e => Raise e
      end
  end.

Definition is_json_whitespace (c : N) : bool :=
  (c =? 32) || (c =? 9) || (c =? 10) || (c =? 13).

Fixpoint skip_whitespace (s : str) : str :=
  match s with
  | [] => []
  | c :: s' => if is_json_whitespace c then skip_whitespace s' else s
  end.

Definition is_digit (c : N) : bool := (48 <=? c) && (c <=? 57).

Definition hex_value (c : N) : option N :=
  if is_digit c then Some (c - 48)
  else if (97 <=? c) && (c <=? 102) then Some (c - 87)
  else if (65 <=? c) && (c <=? 70) then Some (c - 55)
  else None.

(** The four hexadecimal digits after a backslash and [u]. *)
Definition decode_uXXXX (s : str) : outcome (N * str) :=
  match s with
  | h1 :: h2 :: h3 :: h4 :: rest =>
      match hex_value h1, hex_value h2, hex_value h3, hex_value h4 with
      | Some a, Some b, Some c, Some d =>
          Return (((a * 16 + b) * 16 + c) * 16 + d, rest)
      | _, _, _, _ => Raise JSONDecodeError
      end
  | _ => Raise JSONDecodeError
  end.

Definition unescape (c : N) : option N :=
  if c =? 34 then Some 34
  else if c =? 92 then Some 92
  else if c =? 47 then Some 47
  else if c =? 98 then Some 8
  else if c =? 102 then Some 12
  else if c =? 110 then Some 10
  else if c =? 114 then Some 13
  else if c =? 116 then Some 9
  else None.

(** The characters of a string after its opening quote, up to the closing
    quote, and what follows it. *)
Fixpoint scan_string (fuel : nat) (s : str) : outcome (str * str) :=
  let cons_char (c : N) (rest : outcome (str * str)) :=
    match rest with
    | Return (chars, after) => Return (c :: chars, after)
    | Raise e => Raise e
    end in
  match fuel with
  | O => Raise JSONDecodeError
  | S fuel' =>
      match s with
      | [] => Raise JSONDecodeError
      | c :: s1 =>
          if c =? 34 then Return ([], s1)
          else if c <? 32 then Raise JSONDecodeError
          else if negb (c =? 92) then cons_char c (scan_string fuel' s1)
          else
            match s1 with
            | [] => Raise JSONDecodeError
            | e :: s2 =>
                if negb (e =? 117) then
                  match unescape e with
                  | Some c' => cons_char c' (scan_string fuel' s2)
                  | None => Raise JSONDecodeError
                  end
                else
                  match decode_uXXXX s2 with
                  | Raise x => Raise x
                  | Return (uni, s3) =>
                      if (55296 <=? uni) && (uni <=? 56319) then
                        match s3 with
                        | 92 :: 117 :: s4 =>
                            match decode_uXXXX s4 with
                            | Raise x => Raise x
                            | Return (uni2, s5) =>
                                if (56320 <=? uni2) && (uni2 <=? 57343) then
                                  cons_char
                                    (65536 + (uni - 55296) * 1024
                                     + (uni2 - 56320))
                                    (scan_string fuel' s5)
                                else cons_char uni (scan_string fuel' s3)
                            end
                        | _ => cons_char uni (scan_string fuel' s3)
                        end
                      else cons_char uni (scan_string fuel' s3)
                  end
            end
      end
  end.

Fixpoint scan_digits (s : str) (acc : N) : N * str :=
  match s with
  | [] => (acc, [])
  | c :: s' => if is_digit c then scan_digits s' (acc * 10 + (c - 48))
               else (acc, s)
  end.

(** Does a fraction or an exponent follow the integer part? *)
Definition float_follows (s : str) : bool :=
  match s with
  | 46 :: d :: _ => is_digit d
  | e :: rest =>
      if (e =? 101) || (e =? 69) then
        match rest with
        | d :: rest' =>
            if is_digit d then true
            else if (d =? 43) || (d =? 45) then
              match rest' with d' :: _ => is_digit d' | [] => false end
            else false
        | [] => false
        end
      else false
  | [] => false
  end.

(** A number at the head of [s], which starts with a digit. *)
Definition scan_number (negative : bool) (s : str) : outcome (value * str) :=
  let (n, rest) :=
    match s with
    | 48 :: s' => (0, s')
    | _ => scan_digits s 0
    end in
  if float_follows rest then Raise Unmodelled
  else Return (PInt (if negative then - Z.of_N n else Z.of_N n)%Z, rest).

Fixpoint starts_with (prefix s : str) : option str :=
  match prefix, s with
  | [], _ => Some s
  | p :: prefix', c :: s' => if p =? c then starts_with prefix' s' else None
  | _ :: _, [] => None
  end.

(** [d[key] = item] *)
Fixpoint dict_set (d : dict) (key : str) (item : value) : dict :=
  match d with
  | [] => [(key, item)]
  | (k, v) :: d' =>
      if str_eqb k key then (k, item) :: d'
      else (k, v) :: dict_set d' key item
  end.

(** One JSON value at the head of [s] and what follows it. *)
Fixpoint scan_once (fuel : nat) (s : str) : outcome (value * str) :=
  match fuel with
  | O => Raise RecursionError
  | S fuel' =>
      match s with
      | [] => Raise JSONDecodeError
      | c :: s1 =>
          if c =? 34 then
            match scan_string (S (List.length s1)) s1 with
            | Return (chars, rest) => Return (PStr chars, rest)
            | Raise e => Raise e
            end
          else if c =? 123 then
            match skip_whitespace s1 with
            | 125 :: rest => Return (PDict [], rest)
            | s2 => scan_members fuel' s2 []
            end
          else if c =? 91 then
            match skip_whitespace s1 with
            | 93 :: rest => Return (PList [], rest)
            | s2 => scan_items fuel' s2 []
            end
          else if c =? 45 then
            match s1 with
            | d :: _ =>
                if is_digit d then scan_number true s1
                else
                  match starts_with (py "Infinity") s1 with
                  | Some rest => Return (PFloat (S754_infinity true), rest)
                  | None => Raise JSONDecodeError
                  end
            | [] => Raise JSONDecodeError
            end
          else if is_digit c then scan_number false s
          else
            match starts_with (py "null") s, starts_with (py "true") s,
                  starts_with (py "false") s, starts_with (py "NaN") s,
                  starts_with (py "Infinity") s with
            | Some rest, _, _, _, _ => Return (PNone, rest)
            | _, Some rest, _, _, _ => Return (PBool true, rest)
            | _, _, Some rest, _, _ => Return (PBool false, rest)
            | _, _, _, Some rest, _ => Return (PFloat S754_nan, rest)
            | _, _, _, _, Some rest =>
                Return (PFloat (S754_infinity false), rest)
            | _, _, _, _, _ => Raise JSONDecodeError
            end
      end
  end

with scan_items (fuel : nat) (s : str) (seen : list value)
  : outcome (value * str) :=
  match fuel with
  | O => Raise RecursionError
  | S fuel' =>
      match scan_once fuel' s with
      | Raise e => Raise e
      | Return (item, s1) =>
          match skip_whitespace s1 with
          | c :: s2 =>
              if c =? 93 then Return (PList (rev (item :: seen)), s2)
              else if c =? 44 then
                scan_items fuel' (skip_whitespace s2) (item :: seen)
              else Raise JSONDecodeError
          | [] => Raise JSONDecodeError
          end
      end
  end

with scan_members (fuel : nat) (s : str) (seen : dict)
  : outcome (value * str) :=
  match fuel with
  | O => Raise RecursionError
  | S fuel' =>
      match s with
      | 34 :: s1 =>
          match scan_string (S (List.length s1)) s1 with
          | Raise e => Raise e
          | Return (key, s2) =>
              match skip_whitespace s2 with
              | 58 :: s3 =>
                  match scan_once fuel' (skip_whitespace s3) with
                  | Raise e => Raise e
                  | Return (item, s4) =>
                      let seen' := dict_set seen key item in
                      match skip_whitespace s4 with
                      | c :: s5 =>
                          if c =? 125 then Return (PDict seen', s5)
                          else if c =? 44 then
                            scan_members fuel' (skip_whitespace s5) seen'
                          else Raise JSONDecodeError
                      | [] => Raise JSONDecodeError
                      end
                  end
              | _ => Raise JSONDecodeError
              end
          end
      | _ => Raise JSONDecodeError
      end
  end.

(** [json.loads(text)] *)
Definition loads (text : str) : outcome value :=
  match scan_once (2 * List.length text + 2) (skip_whitespace text) with
  | Raise e => Raise e
  | Return (v, rest) =>
      match skip_whitespace rest with
      | [] => Return v
      | _ :: _ => Raise JSONDecodeError
      end
  end.

Definition module : json_module :=
  {| json_dumps := dumps; json_loads := loads |}.

End MiniJson.

(** ** A reference machine

    [Scripted.posix]: a POSIX machine ([os.name == "posix"]) whose file
    system is a fixed list of existing paths and whose child processes
    complete, or fail to start, as scripted, one entry per child, in
    order.  As in CPython, an argument with a NUL character makes
    [subprocess.run] raise [ValueError] before any child is started. *)

Module Scripted.

(** [posixpath.join(a, b)] *)
Definition join (a b : str) : str :=
  match b with
  | 47 :: _ => b
  | _ =>
      match a with
      | [] => b
      | _ :: _ => if last a 0 =? 47 then a ++ b else a ++ [47] ++ b
      end
  end.

(** A child that runs to completion. *)
Definition completes (code : Z) (out err : str)
  : outcome completed_process :=
  Return {| returncode := code; stdout_text := out; stderr_text := err |}.

(** A child that cannot be started. *)
Definition fails (e : exn) : outcome completed_process := Raise e.

Definition has_nul (argument : str) : bool := existsb (N.eqb 0) argument.

Definition next_child (script : list (outcome completed_process))
    (call : run_call)
  : outcome completed_process * list (outcome completed_process) :=
  if existsb has_nul (args call) then (Raise ValueError, script)
  else
    match script with
    | c :: script' => (c, script')
    | [] => (completes 1 [] [], [])
    end.

Definition machine_of (name : str) (files : list str) (directory : str)
  : os_module :=
  {| world := list (outcome completed_process);
     os_name := name;
     os_path_join := join;
     os_path_exists := fun _ path => existsb (str_eqb path) files;
     subprocess_run := next_child;
     host_directory := directory |}.

Definition posix (files : list str) (directory : str) : os_module :=
  machine_of (py "posix") files directory.

End Scripted.

(** JSON text written with single quotes for the double quotes. *)
Definition json_text (s : string) : str :=
  List.map (fun c => if c =? 39 then 34 else c) (py s).

(** The bytes of an ASCII text. *)
Definition ascii_bytes (s : str) : bytes := List.map byte_of_N s.


(** ** Sample machine and messages *)

(** A POSIX machine with the host and [yt-dlp] in [/opt/reeldl]. *)
Definition reeldl_os : os_module :=
  Scripted.posix [py "/opt/reeldl/yt-dlp"] (py "/opt/reeldl").

(** The same machine without [yt-dlp]. *)
Definition bare_os : os_module := Scripted.posix [] (py "/opt/reeldl").

(** [{"action": "download", "pageUrl": url}] *)
Definition download_request (url : str) : value :=
  PDict [(py "action", PStr (py "download")); (py "pageUrl", PStr url)].

(** [{"action": "ping"}] *)
Definition ping : value := PDict [(py "action", PStr (py "ping"))].

(** The host's directory on the sample machines. *)
Definition reeldl_directory : str := py "/opt/reeldl".

(** A process that has read its input, before [yt-dlp] runs and fails
    with a message on its standard error. *)
Definition before_failure : process reeldl_os :=
  @start reeldl_os [] [Scripted.completes 1 (py "partial") (py " network error ")].

(** The same before [yt-dlp] runs and succeeds. *)
Definition before_success : process reeldl_os :=
  @start reeldl_os [] [Scripted.completes 0 (py "done") []].

(** A process about to read the frame of [{"action":"ping"}]. *)
Definition pinged : process reeldl_os :=
  @start reeldl_os (frame (ascii_bytes (json_text "{'action':'ping'}"))) [].



(** A process about to read a download request and then a ping, on a
    machine where [yt-dlp] is there but may not be executed. *)
Definition before_refusal : process reeldl_os :=
  @start reeldl_os
    (frame (ascii_bytes
              (json_text "{'action':'download','pageUrl':'https://x'}"))
     ++ frame (ascii_bytes (json_text "{'action':'ping'}")))
    [Scripted.fails PermissionError].

(** A process about to read the frame of [[1, 2]]. *)
Definition sent_an_array : process reeldl_os :=
  @start reeldl_os (frame (ascii_bytes (json_text "[1, 2]"))) [].

(** A process about to read a download request and then a ping, on a
    machine where [yt-dlp] will succeed. *)
Definition two_requests : process reeldl_os :=
  @start reeldl_os
    (frame (ascii_bytes
              (json_text "{'action':'download','pageUrl':'https://x'}"))
     ++ frame (ascii_bytes (json_text "{'action':'ping'}")))
    [Scripted.completes 0 (py "done") []].

(** A process whose input ends after one byte of a prefix. *)
Definition cut_in_prefix : process reeldl_os := @start reeldl_os [x05] [].

(** A process whose input ends after one byte of a payload of nine. *)
Definition cut_in_payload : process reeldl_os :=
  @start reeldl_os [x09; x00; x00; x00; x7b] [].

(** A process about to read an empty frame and then a ping. *)
Definition empty_then_ping : process reeldl_os :=
  @start reeldl_os
    ([x00; x00; x00; x00]
     ++ frame (ascii_bytes (json_text "{'action':'ping'}"))) [].

(** A process about to read a frame that is not JSON and then a ping. *)
Definition garbage_then_ping : process reeldl_os :=
  @start reeldl_os
    (frame (ascii_bytes (py "{oops"))
     ++ frame (ascii_bytes (json_text "{'action':'ping'}"))) [].

(** A download request with further fields. *)
Definition download_with_extras : dict :=
  [(py "id", PInt 7); (py "action", PStr (py "download"));
   (py "pageUrl", PStr (py "https://x")); (py "quality", PStr (py "best"))].

(** [{"k": "aa...a"}] with [n] letters. *)
Definition padded (n : nat) : value := PDict [(py "k", PStr (repeat 97 n))].

(** The JSON text of [padded n]. *)
Definition padded_text (n : nat) : str :=
  json_text "{'k': '" ++ repeat 97 n ++ json_text "'}".

(** A message of 4 GiB of padding. *)
Definition oversized : value := padded (N.to_nat 4294967296).

(** * Properties *)

(** ** Strings *)

Lemma str_eqb_eq (a b : str) : str_eqb a b = true <-> a = b.
Proof.
  revert b; induction a as [|x a IH]; intros [|y b]; simpl;
    try (split; [discriminate | discriminate]); [tauto|].
  rewrite andb_true_iff, N.eqb_eq, IH.
  split; [intros [-> ->]; reflexivity | intros H; inversion H; auto].
Qed.

Lemma str_eqb_refl (a : str) : str_eqb a a = true.
Proof. apply str_eqb_eq; reflexivity. Qed.

Lemma str_eqb_neq (a b : str) : str_eqb a b = false <-> a <> b.
Proof.
  rewrite <- str_eqb_eq. destruct (str_eqb a b); split; congruence.
Qed.

Lemma lstrip_blank (s : str) : blank s = true -> lstrip s = [].
Proof.
  induction s as [|c s IH]; simpl; [reflexivity|].
  rewrite andb_true_iff; intros [-> Hs]; auto.
Qed.

Lemma lstrip_nil_blank (s : str) : lstrip s = [] -> blank s = true.
Proof.
  induction s as [|c s IH]; simpl; [reflexivity|].
  destruct (is_whitespace c); [auto | discriminate].
Qed.

(** The stripped string is empty exactly for a blank string. *)
Lemma strip_blank (s : str) : strip s = [] <-> blank s = true.
Proof.
  unfold strip, rstrip. split.
  - intros H. apply lstrip_nil_blank.
    apply (f_equal (@rev N)) in H. rewrite rev_involutive in H. simpl in H.
    apply lstrip_nil_blank in H. unfold blank in H.
    rewrite forallb_forall in H.
    destruct (lstrip s) as [|c r] eqn:E; [reflexivity|].
    (* the first character kept by lstrip is not whitespace *)
    assert (Hc : is_whitespace c = true)
      by (apply H; rewrite <- in_rev; left; reflexivity).
    clear H. induction s as [|x s IH]; simpl in E; [discriminate|].
    destruct (is_whitespace x) eqn:Ex; [auto|].
    inversion E; subst. congruence.
  - intros H. rewrite (lstrip_blank _ H). reflexivity.
Qed.

Lemma str_truthy_strip (s : str) : str_truthy (strip s) = negb (blank s).
Proof.
  destruct (blank s) eqn:B.
  - apply strip_blank in B. rewrite B. reflexivity.
  - destruct (strip s) eqn:E; [|reflexivity].
    apply strip_blank in E. congruence.
Qed.

(** ** Reading a prefix of a list *)

Section TakeDrop.
Context {A : Type}.

Lemma take_0 (l : list A) : take 0 l = [].
Proof. destruct l; reflexivity. Qed.

Lemma drop_0 (l : list A) : drop 0 l = l.
Proof. destruct l; reflexivity. Qed.

Lemma len_cons (x : A) (l : list A) : len (x :: l) = N.succ (len l).
Proof. unfold len. simpl List.length. apply Nat2N.inj_succ. Qed.

Lemma len_app (a b : list A) : len (a ++ b) = len a + len b.
Proof. unfold len. rewrite length_app. apply Nat2N.inj_add. Qed.

Lemma take_drop (n : N) (l : list A) : take n l ++ drop n l = l.
Proof.
  revert n; induction l as [|x l IH]; intros n; simpl; [reflexivity|].
  destruct (n =? 0); simpl; [reflexivity | now rewrite IH].
Qed.

Lemma len_take (n : N) (l : list A) : len (take n l) = N.min n (len l).
Proof.
  revert n; induction l as [|x l IH]; intros n; cbn [take].
  - unfold len; simpl. lia.
  - destruct (N.eqb_spec n 0) as [->|Hn].
    + unfold len; simpl. lia.
    + rewrite !len_cons, IH. lia.
Qed.

Lemma take_app_exact (a b : list A) : take (len a) (a ++ b) = a.
Proof.
  induction a as [|x a IH]; cbn [app take].
  - apply take_0.
  - rewrite len_cons.
    destruct (N.eqb_spec (N.succ (len a)) 0) as [E|_]; [lia|].
    now rewrite N.pred_succ, IH.
Qed.

Lemma drop_app_exact (a b : list A) : drop (len a) (a ++ b) = b.
Proof.
  induction a as [|x a IH]; cbn [app drop].
  - apply drop_0.
  - rewrite len_cons.
    destruct (N.eqb_spec (N.succ (len a)) 0) as [E|_]; [lia|].
    now rewrite N.pred_succ, IH.
Qed.

Lemma take_app_len (n : N) (a b : list A) : len a = n -> take n (a ++ b) = a.
Proof. intros <-. apply take_app_exact. Qed.

Lemma drop_app_len (n : N) (a b : list A) : len a = n -> drop n (a ++ b) = b.
Proof. intros <-. apply drop_app_exact. Qed.

Lemma length_drop_le (n : N) (l : list A) :
  (List.length (drop n l) <= List.length l)%nat.
Proof.
  revert n; induction l as [|x l IH]; intros n; simpl; [lia|].
  destruct (n =? 0); simpl; [lia|]. specialize (IH (N.pred n)). lia.
Qed.

Lemma length_drop_lt (n : N) (l : list A) :
  n <> 0 -> l <> [] -> (List.length (drop n l) < List.length l)%nat.
Proof.
  intros Hn Hl. destruct l as [|x l]; [congruence|]. cbn [drop].
  destruct (N.eqb_spec n 0); [congruence|].
  pose proof (length_drop_le (N.pred n) l). cbn [List.length]. lia.
Qed.

Lemma len_drop (n : N) (l : list A) : len (drop n l) = len l - n.
Proof.
  revert n; induction l as [|x l IH]; intros n; cbn [drop].
  - unfold len; simpl. lia.
  - destruct (N.eqb_spec n 0) as [->|Hn].
    + rewrite len_cons. lia.
    + rewrite len_cons, IH, <- N.sub_1_r. lia.
Qed.

End TakeDrop.

(** ** The length prefix *)

Lemma to_N_byte_of_N (n : N) : n < 256 -> Byte.to_N (byte_of_N n) = n.
Proof.
  intros H. unfold byte_of_N.
  destruct (Byte.of_N n) as [b|] eqn:E.
  - now apply Byte.to_of_N.
  - apply Byte.of_N_None_iff in E. lia.
Qed.

Lemma byte_of_N_to_N (b : byte) : byte_of_N (Byte.to_N b) = b.
Proof. unfold byte_of_N. now rewrite Byte.of_to_N. Qed.

Lemma length_little_digits (k : nat) (n : N) :
  List.length (little_digits k n) = k.
Proof. revert n; induction k; intros; simpl; auto. Qed.

Lemma from_bytes_little_digits (k : nat) (n : N) :
  n < 256 ^ N.of_nat k -> from_bytes_little (little_digits k n) = n.
Proof.
  revert n; induction k as [|k IH]; intros n H.
  - simpl in *. lia.
  - cbn [little_digits from_bytes_little].
    rewrite to_N_byte_of_N by (apply N.mod_lt; lia).
    rewrite IH.
    + rewrite (N.div_mod' n 256) at 3. lia.
    + rewrite Nat2N.inj_succ, N.pow_succ_r' in H.
      apply N.Div0.div_lt_upper_bound; lia.
Qed.

(** Writing a length on four bytes and reading it back. *)
Lemma from_bytes_to_bytes (n : N) (raw : bytes) :
  to_bytes_little n 4 = Return raw ->
  from_bytes_little raw = n /\ len raw = 4.
Proof.
  unfold to_bytes_little. destruct (N.ltb_spec n (256 ^ N.of_nat 4)); [|discriminate].
  intros E. assert (R : raw = little_digits 4 n) by congruence.
  rewrite R. split.
  - now apply from_bytes_little_digits.
  - unfold len. now rewrite length_little_digits.
Qed.

Lemma to_bytes_little_fits (n : N) :
  n < 4294967296 -> exists raw, to_bytes_little n 4 = Return raw.
Proof.
  intros H. unfold to_bytes_little.
  change (256 ^ N.of_nat 4) with 4294967296.
  destruct (N.ltb_spec n 4294967296); [eauto | lia].
Qed.

Lemma to_bytes_little_overflow (n : N) :
  4294967296 <= n -> to_bytes_little n 4 = Raise OverflowError.
Proof.
  intros H. unfold to_bytes_little.
  change (256 ^ N.of_nat 4) with 4294967296.
  destruct (N.ltb_spec n 4294967296); [lia | reflexivity].
Qed.

(** ** UTF-8: decoding undoes encoding *)

Module Utf8Facts.
Import Utf8.

Definition cons_char (c : N) (rest : outcome str) : outcome str :=
  match rest with
  | Return s => Return (c :: s)
  | Raise e => Raise e
  end.

(** [c = k * q + r] with [r < k], for fresh [q] and [r] standing for the
    quotient and the remainder. *)
Ltac split_digits c k q r :=
  pose proof (N.div_mod' c k);
  pose proof (N.mod_lt c k ltac:(discriminate));
  remember (c / k) as q; remember (c mod k) as r;
  repeat match goal with H : _ = _ / _ |- _ => clear H end;
  repeat match goal with H : _ = _ mod _ |- _ => clear H end.

Ltac bool_true :=
  repeat (apply andb_true_intro; split);
  first [ apply N.leb_le; lia
        | apply N.ltb_lt; lia
        | apply negb_true_iff, andb_false_iff; rewrite !N.leb_gt; lia ].

(** Settles the test at the head of the goal. *)
Ltac head_tests :=
  repeat match goal with
    | |- (if ?a <? ?b then _ else _) = _ =>
        destruct (N.ltb_spec a b); [try (exfalso; lia) | try (exfalso; lia)]
    | |- (if ?t then _ else _) = _ =>
        replace t with true by (symmetry; bool_true)
    end.

Ltac take_bytes :=
  let E := fresh "E" in
  intros E;
  match type of E with
  | Some ?x = Some ?y => replace y with x by congruence; clear E
  end.

Lemma decode_encode_char (c : N) (cb rest : bytes) :
  encode_char c = Some cb ->
  decode (cb ++ rest) = cons_char c (decode rest).
Proof.
  unfold encode_char.
  destruct (N.ltb_spec c 128) as [H1|H1].
  { take_bytes. cbn [app decode]. rewrite to_N_byte_of_N by lia.
    head_tests. reflexivity. }
  destruct (N.ltb_spec c 2048) as [H2|H2].
  { take_bytes. split_digits c 64 q r.
    cbn [app decode]. unfold continuation, payload.
    rewrite !to_N_byte_of_N by lia.
    replace ((192 + q - 192) * 64 + (128 + r - 128)) with c by lia.
    head_tests. reflexivity. }
  destruct (N.ltb_spec c 65536) as [H3|H3].
  { destruct (N.leb_spec 55296 c) as [S1|S1];
      [destruct (N.leb_spec c 57343) as [S2|S2]|]; cbn [andb];
      try discriminate.
    all: take_bytes; change 4096 with (64 * 64);
      rewrite <- N.Div0.div_div;
      split_digits c 64 q r; split_digits q 64 q' r';
      cbn [app decode]; unfold continuation, payload;
      rewrite !to_N_byte_of_N by lia;
      replace ((224 + q' - 224) * 4096 + (128 + r' - 128) * 64
               + (128 + r - 128)) with c by lia;
      head_tests; reflexivity. }
  destruct (N.ltb_spec c 1114112) as [H4|H4]; [|discriminate].
  take_bytes. change 262144 with (64 * 64 * 64). change 4096 with (64 * 64).
  rewrite <- !N.Div0.div_div.
  split_digits c 64 q r. split_digits q 64 q' r'. split_digits q' 64 q'' r''.
  cbn [app decode]. unfold continuation, payload.
  rewrite !to_N_byte_of_N by lia.
  replace ((240 + q'' - 240) * 262144 + (128 + r'' - 128) * 4096
           + (128 + r' - 128) * 64 + (128 + r - 128)) with c by lia.
  head_tests. reflexivity.
Qed.

(** [text.encode("utf-8").decode("utf-8") == text] whenever the encoding
    succeeds. *)
Lemma decode_encode (s : str) (bs : bytes) :
  encode s = Return bs -> decode bs = Return s.
Proof.
  revert bs; induction s as [|c s IH]; intros bs; cbn [encode].
  - intros [= <-]. reflexivity.
  - destruct (encode_char c) as [cb|] eqn:Ec; [|discriminate].
    destruct (encode s) as [rest|e] eqn:Es; [|discriminate].
    intros [= <-]. rewrite (decode_encode_char _ _ _ Ec), (IH _ eq_refl).
    reflexivity.
Qed.

(** An ASCII text has one byte per character. *)
Lemma encode_ascii (s : str) :
  Forall (fun c => c < 128) s -> encode s = Return (List.map byte_of_N s).
Proof.
  induction 1 as [|c s Hc _ IH]; cbn [encode List.map]; [reflexivity|].
  rewrite IH. unfold encode_char.
  destruct (N.ltb_spec c 128); [reflexivity | lia].
Qed.

End Utf8Facts.

(** ** The framing channel *)

Section Framing.

Variable json : json_module.
Variable os : os_module.

Lemma len_frame_prefix (body : bytes) : len (little_digits 4 (len body)) = 4.
Proof. unfold len at 1. now rewrite length_little_digits. Qed.

(** A payload whose encoding fits the prefix is written as one frame, and
    flushed. *)
Lemma send_writes_frame (payload : value) (text : str) (body : bytes)
    (p : process os) :
  json_dumps json payload = Return text ->
  Utf8.encode text = Return body ->
  len body < 4294967296 ->
  send_native_message json os payload p
  = (Return tt, having_written p (frame body)).
Proof.
  intros Hd He Hl. unfold send_native_message, bind, lift.
  rewrite Hd, He. unfold to_bytes_little.
  change (256 ^ N.of_nat 4) with 4294967296.
  destruct (N.ltb_spec (len body) 4294967296); [|lia].
  unfold stdout_write, stdout_flush, having_written, frame.
  cbn [stdin stdout stdout_buffer machine children].
  now rewrite <- !app_assoc.
Qed.

(** A payload whose encoding does not fit the prefix is not written:
    computing the prefix raises before the first write. *)
Lemma send_overflow (payload : value) (text : str) (body : bytes)
    (p : process os) :
  json_dumps json payload = Return text ->
  Utf8.encode text = Return body ->
  4294967296 <= len body ->
  send_native_message json os payload p = (Raise OverflowError, p).
Proof.
  intros Hd He Hl. unfold send_native_message, bind, lift.
  rewrite Hd, He, (to_bytes_little_overflow _ Hl). reflexivity.
Qed.

(** The two ways a message is sent. *)
Lemma send_cases (payload : value) (p : process os) :
  (exists text body,
      json_dumps json payload = Return text /\
      Utf8.encode text = Return body /\
      len body < 4294967296 /\
      send_native_message json os payload p
      = (Return tt, having_written p (frame body))) \/
  (exists e, send_native_message json os payload p = (Raise e, p)).
Proof.
  destruct (json_dumps json payload) as [text|e] eqn:Hd.
  - destruct (Utf8.encode text) as [body|e] eqn:He.
    + destruct (N.lt_ge_cases (len body) 4294967296) as [Hl|Hl].
      * left. exists text, body. repeat split; auto.
        now apply (send_writes_frame payload text body).
      * right. exists OverflowError.
        now apply (send_overflow payload text body).
    + right. exists e. unfold send_native_message, bind, lift.
      now rewrite Hd, He.
  - right. exists e. unfold send_native_message, bind, lift. now rewrite Hd.
Qed.

(** What [read_native_message] does, by the input that is left. *)
Lemma read_native_message_eq (p : process os) :
  read_native_message json os p =
  let input := stdin p in
  let message_length := from_bytes_little (take 4 input) in
  let after_prefix := drop 4 input in
  if len input <? 4 then (Return PNone, with_stdin p after_prefix)
  else if message_length =? 0 then (Return PNone, with_stdin p after_prefix)
  else if len after_prefix <? message_length
    then (Return PNone, with_stdin p (drop message_length after_prefix))
  else
    (match Utf8.decode (take message_length after_prefix) with
     | Return decoded => json_loads json decoded
     | Raise e => Raise e
     end,
     with_stdin p (drop message_length after_prefix)).
Proof.
  unfold read_native_message, bind, stdin_read, ret, lift. cbv zeta.
  rewrite len_take.
  destruct (N.ltb_spec (len (stdin p)) 4) as [H4|H4].
  - destruct (N.ltb_spec (N.min 4 (len (stdin p))) 4); [reflexivity | lia].
  - destruct (N.ltb_spec (N.min 4 (len (stdin p))) 4); [lia|].
    destruct (from_bytes_little (take 4 (stdin p)) =? 0); [reflexivity|].
    cbn [stdin with_stdin stdout stdout_buffer machine children].
    rewrite len_take.
    set (L := from_bytes_little (take 4 (stdin p))).
    destruct (N.ltb_spec (len (drop 4 (stdin p))) L) as [HL|HL].
    + destruct (N.ltb_spec (N.min L (len (drop 4 (stdin p)))) L);
        [reflexivity | lia].
    + destruct (N.ltb_spec (N.min L (len (drop 4 (stdin p)))) L); [lia|].
      destruct (Utf8.decode (take L (drop 4 (stdin p)))); reflexivity.
Qed.

(** Reading one frame that is followed by [rest]. *)
Lemma read_frame (body rest : bytes) (text : str) (p : process os) :
  stdin p = frame body ++ rest ->
  body <> [] ->
  len body < 4294967296 ->
  Utf8.decode body = Return text ->
  read_native_message json os p = (json_loads json text, with_stdin p rest).
Proof.
  intros Hin Hne Hl Hd. rewrite read_native_message_eq. cbv zeta.
  rewrite Hin. unfold frame. rewrite <- app_assoc.
  pose proof (len_frame_prefix body) as H4.
  rewrite (take_app_len _ _ _ H4), !(drop_app_len _ _ _ H4).
  rewrite from_bytes_little_digits by exact Hl.
  rewrite !len_app, H4.
  assert (0 < len body)
    by (destruct body; [congruence | rewrite len_cons; lia]).
  destruct (N.ltb_spec (4 + (len body + len rest)) 4); [lia|].
  destruct (N.eqb_spec (len body) 0); [lia|].
  destruct (N.ltb_spec (len body + len rest) (len body)); [lia|].
  rewrite take_app_exact, drop_app_exact, Hd.
  destruct (json_loads json text); reflexivity.
Qed.

End Framing.

(** ** Round trip through the framing channel *)

Section RoundTrip.

Variable json : json_module.
Variable os : os_module.

Lemma with_stdin_twice (p : process os) (a b : bytes) :
  with_stdin (with_stdin p a) b = with_stdin p b.
Proof. reflexivity. Qed.

(** Writing frameable messages appends their frames, which are then read
    back one by one. *)
Lemma send_all_read_all (messages : list value) :
  Forall (frameable json) messages ->
  exists data : bytes,
    (forall i o w c,
        send_all json os messages
          {| stdin := i; stdout := o; stdout_buffer := [];
             machine := w; children := c |}
        = (Return tt,
           {| stdin := i; stdout := o ++ data; stdout_buffer := [];
              machine := w; children := c |})) /\
    (forall (q : process os) rest,
        stdin q = data ++ rest ->
        read_all json os (List.length messages) q
        = (Return messages, with_stdin q rest)).
Proof.
  induction 1 as [|m ms Hm _ IH].
  - exists []. split.
    + intros. cbn [send_all]. unfold ret. now rewrite app_nil_r.
    + intros q rest Hq. cbn [read_all List.length]. unfold ret.
      destruct q; cbn in *; subst; reflexivity.
  - destruct IH as (data & Hsend & Hread).
    destruct Hm as (body & (text & Hd & Hl & He & Hne) & Hfit).
    exists (frame body ++ data). split.
    + intros. cbn [send_all]. unfold bind.
      rewrite (send_writes_frame json os m text body _ Hd He Hfit).
      unfold having_written. cbn [stdin stdout stdout_buffer machine children].
      rewrite Hsend. now rewrite app_nil_l, app_assoc.
    + intros q rest Hq. cbn [read_all List.length]. unfold bind.
      rewrite <- app_assoc in Hq.
      rewrite (read_frame json os body (data ++ rest) text q Hq Hne Hfit
                 (Utf8Facts.decode_encode _ _ He)).
      rewrite Hl. rewrite (Hread (with_stdin q (data ++ rest)) rest eq_refl).
      unfold ret. now rewrite with_stdin_twice.
Qed.

(** C1 (amended): framing round trip.  For all messages that [json]
    serializes to a text it reads back as the message, and whose UTF-8
    encoding is shorter than 2^32 bytes, writing them in sequence with
    [send_native_message] succeeds, and reading the bytes written with
    [read_native_message] yields the same messages in the same order; one
    message is the case of a list of one. *)
Theorem framing_round_trip_within_prefix (messages : list value) :
  Forall (frameable json) messages -> framing_round_trip json os messages.
Proof.
  intros H w. destruct (send_all_read_all messages H) as (data & Hsend & Hread).
  exists {| stdin := []; stdout := [] ++ data; stdout_buffer := [];
            machine := w; children := [] |}.
  split; [apply Hsend|]. cbn [stdout].
  rewrite (Hread (start ([] ++ data) w) []); [reflexivity|].
  cbn. now rewrite app_nil_r.
Qed.

End RoundTrip.

(** Settles [frameable] for a concrete message by evaluation. *)
Ltac frameable_example :=
  unfold frameable, json_round_trips; eexists; split;
  [ eexists; split; [vm_compute; reflexivity|];
    split; [vm_compute; reflexivity|];
    split; [vm_compute; reflexivity | discriminate]
  | vm_compute; reflexivity ].

Lemma framing_round_trip_witness :
  framing_round_trip MiniJson.module reeldl_os
    [download_request (py "https://x"); ping; unknown_action].
Proof.
  apply framing_round_trip_within_prefix.
  repeat (apply Forall_cons; [frameable_example|]). apply Forall_nil.
Defined.

(** ** The reference [json] module on padded messages *)

Module MiniJsonFacts.
Import MiniJson.

Lemma escape_letters (n : nat) : flat_map escape (repeat 97 n) = repeat 97 n.
Proof. induction n as [|n IH]; cbn [repeat flat_map]; [|rewrite IH]; reflexivity. Qed.

Lemma dumps_padded (n : nat) : dumps (padded n) = Return (padded_text n).
Proof.
  unfold padded, padded_text. cbn [dumps]. unfold quote at 2.
  rewrite escape_letters. f_equal. cbn [join].
  change (json_text "{'k': '") with (py "{" ++ quote (py "k") ++ py ": " ++ [34]).
  change (json_text "'}") with ([34] ++ py "}").
  now rewrite <- !app_assoc.
Qed.

(** A string without quote, backslash or control character is scanned up
    to its closing quote. *)
Lemma scan_string_letters (n fuel : nat) (rest : str) :
  (n < fuel)%nat ->
  scan_string fuel (repeat 97 n ++ 34 :: rest) = Return (repeat 97 n, rest).
Proof.
  revert fuel; induction n as [|n IH]; intros [|fuel] H; try lia.
  - reflexivity.
  - cbn [repeat app]. cbn [scan_string].
    change (97 =? 34) with false. change (97 <? 32) with false.
    change (negb (97 =? 92)) with true. cbv iota.
    rewrite IH by lia. reflexivity.
Qed.

(** The object [{"k": "..."}], given the scan of its string. *)
Lemma scan_once_k (tail chars : str) (fuel : nat) :
  scan_string (S (List.length tail)) tail = Return (chars, [125]) ->
  scan_once (S (S (S fuel))) (json_text "{'k': '" ++ tail)
  = Return (PDict [(py "k", PStr chars)], []).
Proof.
  intros H. cbn -[scan_string].
  replace (scan_string _ (107 :: 34 :: 58 :: 32 :: 34 :: tail))
    with (Return ([107], 58 :: 32 :: 34 :: tail)) by reflexivity.
  cbn -[scan_string]. rewrite H. reflexivity.
Qed.

Lemma scan_once_padded (n fuel : nat) :
  scan_once (S (S (S fuel))) (padded_text n) = Return (padded n, []).
Proof.
  apply scan_once_k.
  change (json_text "'}") with (34 :: [125]).
  apply scan_string_letters. rewrite length_app, repeat_length. lia.
Qed.

Lemma length_padded_text (n : nat) :
  List.length (padded_text n) = (9 + n)%nat.
Proof.
  unfold padded_text. rewrite !length_app, repeat_length.
  change (List.length (json_text "{'k': '")) with 7%nat.
  change (List.length (json_text "'}")) with 2%nat. lia.
Qed.

Lemma loads_padded (n : nat) : loads (padded_text n) = Return (padded n).
Proof.
  unfold loads.
  replace (skip_whitespace (padded_text n)) with (padded_text n) by reflexivity.
  rewrite length_padded_text.
  replace (2 * (9 + n) + 2)%nat with (S (S (S (2 * n + 17)))) by lia.
  rewrite scan_once_padded. reflexivity.
Qed.

Lemma padded_text_ascii (n : nat) : Forall (fun c => c < 128) (padded_text n).
Proof.
  unfold padded_text. rewrite !Forall_app. repeat split.
  - repeat constructor.
  - apply Forall_forall. intros c Hc. apply repeat_spec in Hc. subst. reflexivity.
  - repeat constructor.
Qed.

Lemma len_padded_body (n : nat) :
  len (ascii_bytes (padded_text n)) = 9 + N.of_nat n.
Proof.
  unfold len, ascii_bytes. rewrite length_map, length_padded_text. lia.
Qed.

Lemma padded_round_trips (n : nat) :
  json_round_trips MiniJson.module (padded n) (ascii_bytes (padded_text n)).
Proof.
  exists (padded_text n). cbn [json_dumps json_loads MiniJson.module].
  split; [apply dumps_padded|]. split; [apply loads_padded|].
  split; [apply Utf8Facts.encode_ascii, padded_text_ascii|].
  intros E. apply (f_equal len) in E. rewrite len_padded_body in E.
  change (len (@nil byte)) with 0 in E. lia.
Qed.

End MiniJsonFacts.

(** A message the sender cannot write does not make the round trip. *)
Lemma unsent_breaks_round_trip (json : json_module) (os : os_module)
    (m : value) (w : world os) (e : exn) (p : process os) :
  send_native_message json os m (start [] w) = (Raise e, p) ->
  ~ framing_round_trip json os [m].
Proof.
  intros Hraise H. destruct (H w) as (written & Hs & _).
  cbn [send_all] in Hs. unfold bind in Hs. rewrite Hraise in Hs.
  discriminate.
Qed.

Lemma send_oversized (p : process reeldl_os) :
  send_native_message MiniJson.module reeldl_os oversized p
  = (Raise OverflowError, p).
Proof.
  unfold oversized.
  apply (send_overflow MiniJson.module reeldl_os _
           (padded_text (N.to_nat 4294967296))
           (ascii_bytes (padded_text (N.to_nat 4294967296)))).
  - apply MiniJsonFacts.dumps_padded.
  - apply Utf8Facts.encode_ascii, MiniJsonFacts.padded_text_ascii.
  - rewrite MiniJsonFacts.len_padded_body, N2Nat.id. lia.
Qed.

(** C1 (as stated) fails on a message whose JSON text has 2^32 + 9 bytes:
    [json] serializes it and reads it back, but [send_native_message]
    raises [OverflowError] on the length prefix and writes nothing, so
    there is nothing to read back. *)
Lemma oversized_message_breaks_round_trip :
  (exists body, json_round_trips MiniJson.module oversized body) /\
  send_native_message MiniJson.module reeldl_os oversized
    (@start reeldl_os [] [])
  = (Raise OverflowError, @start reeldl_os [] []) /\
  ~ framing_round_trip MiniJson.module reeldl_os [oversized].
Proof.
  split; [|split].
  - eexists. apply MiniJsonFacts.padded_round_trips.
  - apply send_oversized.
  - exact (unsent_breaks_round_trip _ _ _ _ _ _
             (send_oversized (@start reeldl_os [] []))).
Qed.

(** ** The request dispatcher *)

Lemma dict_has_get (d : dict) (key : str) :
  dict_has d key = false -> dict_get d key = PNone.
Proof.
  induction d as [|[k v] d IH]; cbn [dict_has dict_get]; [reflexivity|].
  destruct (str_eqb k key); [discriminate | exact IH].
Qed.

Lemma eq_str_true (x : value) (s : str) : eq_str x s = true <-> x = PStr s.
Proof.
  destruct x; cbn [eq_str]; try (split; [discriminate | discriminate]).
  rewrite str_eqb_eq. split; [intros ->; reflexivity | intros [= ->]; reflexivity].
Qed.

Lemma eq_str_false (x : value) (s : str) : eq_str x s = false <-> x <> PStr s.
Proof.
  rewrite <- eq_str_true. destruct (eq_str x s); split; congruence.
Qed.

Section Dispatcher.

Variable json : json_module.
Variable os : os_module.

(** A download request is handled by [handle_download_request]. *)
Lemma dispatch_download (d : dict) (script_directory : str) (p : process os) :
  dict_get d (py "action") = PStr (py "download") ->
  dispatch os (PDict d) script_directory p
  = handle_download_request os (PDict d) script_directory p.
Proof.
  intros H. unfold dispatch, bind, lift. cbn [py_get]. rewrite H.
  reflexivity.
Qed.

(** A page URL that is no string, or a blank one, is refused at once. *)
Lemma handle_missing (d : dict) (script_directory : str) (p : process os) :
  (forall s, dict_get d (py "pageUrl") = PStr s -> blank s = true) ->
  handle_download_request os (PDict d) script_directory p
  = (Return missing_page_url, p).
Proof.
  intros H. unfold handle_download_request, bind, lift. cbn [py_get].
  destruct (dict_get d (py "pageUrl")) as [| | | |s| |] eqn:E; try reflexivity.
  rewrite str_truthy_strip, (H s eq_refl). reflexivity.
Qed.

(** A request with a usable page URL reaches the check of the path and,
    when the downloader is there, the call of [subprocess.run]. *)
Lemma handle_valid (d : dict) (url script_directory : str) (p : process os) :
  dict_get d (py "pageUrl") = PStr url ->
  blank url = false ->
  handle_download_request os (PDict d) script_directory p
  = let yt_dlp_path := resolve_yt_dlp_path os script_directory in
    if os_path_exists os (machine p) yt_dlp_path then
      let call := yt_dlp_call os script_directory url in
      (match fst (subprocess_run os (machine p) call) with
       | Return completed => Return (run_reply completed)
       | Raise e => Raise e
       end,
       having_run p call)
    else
      (Return (response (py "error")
                 (py "yt-dlp was not found at " ++ yt_dlp_path ++ py ".")),
       p).
Proof.
  intros E B. unfold handle_download_request, bind, lift. cbn [py_get].
  rewrite E, str_truthy_strip, B. cbn [negb]. cbv zeta.
  unfold path_exists, ret.
  destruct (os_path_exists os (machine p) (resolve_yt_dlp_path os script_directory));
    cbn [negb]; [|reflexivity].
  unfold run, having_run, yt_dlp_call.
  destruct (subprocess_run os (machine p) _) as [[completed|e] machine'] eqn:R;
    cbn [fst snd]; [|reflexivity].
  unfold run_reply. destruct (returncode completed =? 0)%Z; reflexivity.
Qed.

(** C4: a download request whose [pageUrl] is absent, is not a string, or
    is a blank string gets the response
    [{"status": "error", "message": "Missing page URL for yt-dlp."}], and
    the process is left as it was: no child process is run. *)
Theorem missing_page_url_is_refused (d : dict) (script_directory : str)
    (p : process os) :
  dict_get d (py "action") = PStr (py "download") ->
  dict_has d (py "pageUrl") = false \/
  (forall s, dict_get d (py "pageUrl") <> PStr s) \/
  (exists s, dict_get d (py "pageUrl") = PStr s /\ blank s = true) ->
  dispatch os (PDict d) script_directory p
  = (Return (response (py "error") (py "Missing page URL for yt-dlp.")), p).
Proof.
  intros Ha H. rewrite (dispatch_download _ _ _ Ha). apply handle_missing.
  intros s Hs. destruct H as [H | [H | (s' & Hs' & B)]].
  - apply dict_has_get in H. congruence.
  - elim (H s Hs).
  - congruence.
Qed.

(** C5: for a download request with a usable page URL, the path of the
    downloader is [os.path.join] of the host's directory and [yt-dlp.exe]
    when [os.name] is [nt], [yt-dlp] otherwise; when nothing exists at that
    path the response has status [error] and a message that includes the
    path, and the process is left as it was: no child process is run. *)
Theorem absent_downloader_is_reported (d : dict) (url script_directory : str)
    (p : process os) :
  dict_get d (py "action") = PStr (py "download") ->
  dict_get d (py "pageUrl") = PStr url ->
  blank url = false ->
  os_path_exists os (machine p) (resolve_yt_dlp_path os script_directory)
  = false ->
  (os_name os = py "nt" /\
   resolve_yt_dlp_path os script_directory
   = os_path_join os script_directory (py "yt-dlp.exe")
   \/
   os_name os <> py "nt" /\
   resolve_yt_dlp_path os script_directory
   = os_path_join os script_directory (py "yt-dlp")) /\
  exists message,
    dispatch os (PDict d) script_directory p
    = (Return (response (py "error") message), p) /\
    includes (resolve_yt_dlp_path os script_directory) message.
Proof.
  intros Ha Hu B Hx. split.
  - unfold resolve_yt_dlp_path.
    destruct (str_eqb (os_name os) (py "nt")) eqn:E.
    + left. apply str_eqb_eq in E. auto.
    + right. apply str_eqb_neq in E. auto.
  - rewrite (dispatch_download _ _ _ Ha), (handle_valid _ _ _ _ Hu B).
    cbv zeta. rewrite Hx. eexists. split; [reflexivity|].
    exists (py "yt-dlp was not found at "), (py "."). reflexivity.
Qed.

(** C6: for a download request with a usable page URL whose downloader
    exists, exactly one call of [subprocess.run] is made, with the
    arguments [[path, "--cookies-from-browser", "chrome", pageUrl]], the
    host's directory as working directory, output captured as text; the
    dispatcher goes on only when the call is over, with the response
    computed from the completed process (or with the exception of the
    call), having read and written nothing itself. *)
Theorem download_runs_yt_dlp (d : dict) (url script_directory : str)
    (p : process os) :
  dict_get d (py "action") = PStr (py "download") ->
  dict_get d (py "pageUrl") = PStr url ->
  blank url = false ->
  os_path_exists os (machine p) (resolve_yt_dlp_path os script_directory)
  = true ->
  let call :=
    {| args := [resolve_yt_dlp_path os script_directory;
                py "--cookies-from-browser"; py "chrome"; url];
       cwd := script_directory; capture_output := true; text := true |} in
  dispatch os (PDict d) script_directory p
  = (match fst (subprocess_run os (machine p) call) with
     | Return completed => Return (run_reply completed)
     | Raise e => Raise e
     end,
     {| stdin := stdin p; stdout := stdout p;
        stdout_buffer := stdout_buffer p;
        machine := snd (subprocess_run os (machine p) call);
        children := children p ++ [call] |}).
Proof.
  intros Ha Hu B Hx call.
  rewrite (dispatch_download _ _ _ Ha), (handle_valid _ _ _ _ Hu B).
  cbv zeta. rewrite Hx. reflexivity.
Qed.

(** C7: when the child process of a download exits with a non-zero
    status, the response has status [error] and its message is the
    stripped standard error, or the stripped standard output when that is
    empty, or ["yt-dlp failed with an unknown error."] when both are. *)
Theorem failed_download_reports_output (d : dict) (url script_directory : str)
    (p : process os) (completed : completed_process) :
  dict_get d (py "action") = PStr (py "download") ->
  dict_get d (py "pageUrl") = PStr url ->
  blank url = false ->
  os_path_exists os (machine p) (resolve_yt_dlp_path os script_directory)
  = true ->
  fst (subprocess_run os (machine p) (yt_dlp_call os script_directory url))
  = Return completed ->
  returncode completed <> 0%Z ->
  fst (dispatch os (PDict d) script_directory p)
  = Return
      (response (py "error")
         (match strip (stderr_text completed), strip (stdout_text completed) with
          | (_ :: _) as err, _ => err
          | [], (_ :: _) as out => out
          | [], [] => py "yt-dlp failed with an unknown error."
          end)).
Proof.
  intros Ha Hu B Hx Hr Hc.
  rewrite (dispatch_download _ _ _ Ha), (handle_valid _ _ _ _ Hu B).
  cbv zeta. rewrite Hx, Hr. cbn [fst]. unfold run_reply.
  apply Z.eqb_neq in Hc. rewrite Hc.
  destruct (strip (stderr_text completed)), (strip (stdout_text completed));
    reflexivity.
Qed.

(** C8: when the child process of a download exits with status zero, the
    response is
    [{"status": "ok", "message": "yt-dlp finished downloading the reel."}],
    whatever the child wrote. *)
Theorem finished_download_is_ok (d : dict) (url script_directory : str)
    (p : process os) (completed : completed_process) :
  dict_get d (py "action") = PStr (py "download") ->
  dict_get d (py "pageUrl") = PStr url ->
  blank url = false ->
  os_path_exists os (machine p) (resolve_yt_dlp_path os script_directory)
  = true ->
  fst (subprocess_run os (machine p) (yt_dlp_call os script_directory url))
  = Return completed ->
  returncode completed = 0%Z ->
  fst (dispatch os (PDict d) script_directory p)
  = Return (response (py "ok") (py "yt-dlp finished downloading the reel.")).
Proof.
  intros Ha Hu B Hx Hr Hc.
  rewrite (dispatch_download _ _ _ Ha), (handle_valid _ _ _ _ Hu B).
  cbv zeta. rewrite Hx, Hr. cbn [fst]. unfold run_reply. rewrite Hc.
  reflexivity.
Qed.

(** Any other action, a missing one included, is unknown. *)
Lemma dispatch_unknown (d : dict) (script_directory : str) (p : process os) :
  dict_get d (py "action") <> PStr (py "download") ->
  dispatch os (PDict d) script_directory p = (Return unknown_action, p).
Proof.
  intros H. unfold dispatch, bind, lift. cbn [py_get].
  apply eq_str_false in H. rewrite H. reflexivity.
Qed.


(** The four ways a message is dispatched. *)
Lemma dispatch_cases (d : dict) (script_directory : str) (p : process os) :
  let yt_dlp_path := resolve_yt_dlp_path os script_directory in
  (dict_get d (py "action") <> PStr (py "download") /\
   dispatch os (PDict d) script_directory p = (Return unknown_action, p)) \/
  (dict_get d (py "action") = PStr (py "download") /\
   (forall s, dict_get d (py "pageUrl") = PStr s -> blank s = true) /\
   dispatch os (PDict d) script_directory p = (Return missing_page_url, p)) \/
  (exists url,
      dict_get d (py "action") = PStr (py "download") /\
      dict_get d (py "pageUrl") = PStr url /\ blank url = false /\
      os_path_exists os (machine p) yt_dlp_path = false /\
      dispatch os (PDict d) script_directory p
      = (Return (response (py "error")
                   (py "yt-dlp was not found at " ++ yt_dlp_path ++ py ".")),
         p)) \/
  (exists url,
      dict_get d (py "action") = PStr (py "download") /\
      dict_get d (py "pageUrl") = PStr url /\ blank url = false /\
      os_path_exists os (machine p) yt_dlp_path = true /\
      dispatch os (PDict d) script_directory p
      = (match fst (subprocess_run os (machine p)
                      (yt_dlp_call os script_directory url)) with
         | Return completed => Return (run_reply completed)
         | Raise e => Raise e
         end,
         having_run p (yt_dlp_call os script_directory url))).
Proof.
  cbv zeta.
  destruct (eq_str (dict_get d (py "action")) (py "download")) eqn:Ea.
  - apply eq_str_true in Ea. right.
    rewrite (dispatch_download _ _ _ Ea).
    assert (Hcase : (forall s, dict_get d (py "pageUrl") = PStr s ->
                               blank s = true) \/
                    exists url, dict_get d (py "pageUrl") = PStr url /\
                                blank url = false).
    { destruct (dict_get d (py "pageUrl")) as [| | | |url| |];
        try (left; intros s Hs; discriminate).
      destruct (blank url) eqn:B; [left; intros s [= <-]; exact B|].
      right. eauto. }
    destruct Hcase as [Hm | (url & Hu & B)].
    + left. repeat split; auto. now apply handle_missing.
    + right. rewrite (handle_valid _ _ _ _ Hu B). cbv zeta.
      destruct (os_path_exists os (machine p)
                  (resolve_yt_dlp_path os script_directory)) eqn:Hx.
      * right. exists url. repeat split; auto.
      * left. exists url. repeat split; auto.
  - apply eq_str_false in Ea. left. split; [exact Ea|].
    now apply dispatch_unknown.
Qed.

(** The dispatcher touches neither stream, whether it returns or raises. *)
Lemma dispatch_keeps_streams (d : dict) (script_directory : str)
    (p p' : process os) (r : outcome value) :
  dispatch os (PDict d) script_directory p = (r, p') ->
  stdin p' = stdin p /\ stdout p' = stdout p /\
  stdout_buffer p' = stdout_buffer p.
Proof.
  intros H.
  destruct (dispatch_cases d script_directory p)
    as [(_ & E) | [(_ & _ & E) | [(url & _ & _ & _ & _ & E)
                                 | (url & _ & _ & _ & _ & E)]]];
    rewrite E in H; apply pair_equal_spec in H as [_ <-]; auto.
Qed.

End Dispatcher.

(** ** Reading: when there is no message *)

Section NoMessage.

Variable json : json_module.
Variable os : os_module.

(** C3 (amended): [read_native_message] returns [None] exactly when fewer
    than 4 bytes are left for the prefix, or the length [L] of the prefix
    is 0, or fewer than [L] bytes follow the prefix, or the [L] bytes are
    a text that [json.loads] reads as [None] (the JSON text [null]).  In
    particular it returns [None] on the four bytes 00 00 00 00 and on an
    exhausted input. *)
Theorem no_message_cases (p : process os) :
  let input := stdin p in
  let message_length := from_bytes_little (take 4 input) in
  let after_prefix := drop 4 input in
  (fst (read_native_message json os p) = Return PNone <->
   len input < 4 \/
   message_length = 0 \/
   len after_prefix < message_length \/
   exists decoded,
     Utf8.decode (take message_length after_prefix) = Return decoded /\
     json_loads json decoded = Return PNone) /\
  (input = [x00; x00; x00; x00] \/ input = [] ->
   fst (read_native_message json os p) = Return PNone).
Proof.
  cbv zeta. rewrite read_native_message_eq. cbv zeta.
  set (L := from_bytes_little (take 4 (stdin p))).
  assert (Hiff :
    fst (if len (stdin p) <? 4
         then (Return PNone, with_stdin p (drop 4 (stdin p)))
         else if L =? 0 then (Return PNone, with_stdin p (drop 4 (stdin p)))
         else if len (drop 4 (stdin p)) <? L
           then (Return PNone, with_stdin p (drop L (drop 4 (stdin p))))
         else (match Utf8.decode (take L (drop 4 (stdin p))) with
               | Return decoded => json_loads json decoded
               | Raise e => Raise e
               end, with_stdin p (drop L (drop 4 (stdin p)))))
    = Return PNone <->
    len (stdin p) < 4 \/ L = 0 \/ len (drop 4 (stdin p)) < L \/
    exists decoded,
      Utf8.decode (take L (drop 4 (stdin p))) = Return decoded /\
      json_loads json decoded = Return PNone).
  { destruct (N.ltb_spec (len (stdin p)) 4) as [H4|H4]; [cbn; tauto|].
    destruct (N.eqb_spec L 0) as [H0|H0]; [cbn; tauto|].
    destruct (N.ltb_spec (len (drop 4 (stdin p))) L) as [HL|HL]; [cbn; tauto|].
    cbn [fst]. split.
    - intros H. right; right; right.
      destruct (Utf8.decode (take L (drop 4 (stdin p)))) as [decoded|e];
        [|discriminate].
      exists decoded. auto.
    - intros [H | [H | [H | (decoded & Hd & Hj)]]]; try lia.
      now rewrite Hd. }
  split; [exact Hiff|].
  intros H. apply Hiff. destruct H as [H|H].
  - right; left. subst L. rewrite H. reflexivity.
  - left. rewrite H. reflexivity.
Qed.

End NoMessage.

(** C3 (as stated) fails on the frame of the JSON text [null]: the prefix
    is complete, the length is 4 and the four bytes are there, and
    [read_native_message] returns [None] all the same, because
    [json.loads("null")] is [None]. *)
Lemma null_payload_reads_as_no_message :
  let input := frame (ascii_bytes (py "null")) in
  fst (read_native_message MiniJson.module reeldl_os (@start reeldl_os input []))
  = Return PNone /\
  ~ (len input < 4 \/
     from_bytes_little (take 4 input) = 0 \/
     len (drop 4 input) < from_bytes_little (take 4 input)).
Proof.
  cbv zeta. split; [vm_compute; reflexivity|].
  intros [H | [H | H]]; vm_compute in H; discriminate.
Qed.

(** ** The loop *)

Section Loop.

Variable json : json_module.
Variable os : os_module.



(** Sending leaves the input alone. *)
Lemma send_stdin (payload : value) (p p' : process os) (r : outcome unit) :
  send_native_message json os payload p = (r, p') -> stdin p' = stdin p.
Proof.
  unfold send_native_message, bind, lift, stdout_write, stdout_flush.
  destruct (json_dumps json payload); [|intros [= _ <-]; reflexivity].
  destruct (Utf8.encode a); [|intros [= _ <-]; reflexivity].
  destruct (to_bytes_little (len a0) 4); intros [= _ <-]; reflexivity.
Qed.

(** A message that is not [None] was read from a complete frame, so the
    input got shorter. *)
Lemma read_consumes (p p1 : process os) (v : value) :
  read_native_message json os p = (Return v, p1) ->
  is_None v = false ->
  (List.length (stdin p1) < List.length (stdin p))%nat.
Proof.
  rewrite read_native_message_eq. cbv zeta.
  destruct (N.ltb_spec (len (stdin p)) 4) as [H4|H4];
    [intros [= <- _]; discriminate|].
  destruct (from_bytes_little (take 4 (stdin p)) =? 0);
    [intros [= <- _]; discriminate|].
  destruct (len (drop 4 (stdin p)) <? _); [intros [= <- _]; discriminate|].
  intros [= _ <-] _. cbn [stdin with_stdin].
  pose proof (length_drop_le (from_bytes_little (take 4 (stdin p)))
                (drop 4 (stdin p))).
  assert (stdin p <> [])
    by (intros E; rewrite E in H4; change (len (@nil byte)) with 0 in H4; lia).
  pose proof (length_drop_lt 4 (stdin p) ltac:(discriminate) ltac:(assumption)).
  lia.
Qed.

Lemma answer_stdin (v : value) (script_directory : str) (p p' : process os)
    (r : outcome unit) :
  answer json os v script_directory p = (r, p') -> stdin p' = stdin p.
Proof.
  unfold answer, bind. destruct v as [| | | | | |d];
    try (unfold dispatch, bind, lift; cbn [py_get]; intros [= _ <-]; reflexivity).
  destruct (dispatch os (PDict d) script_directory p) as [[reply|e] p2] eqn:Hd;
    apply dispatch_keeps_streams in Hd as (Hi & _).
  - intros H. apply send_stdin in H. congruence.
  - intros [= _ <-]. exact Hi.
Qed.

(** The loop ends within as many turns as there are bytes of input. *)
Lemma host_loop_ends (fuel : nat) (script_directory : str) (p : process os) :
  (List.length (stdin p) < fuel)%nat ->
  host_loop json os fuel script_directory p <> None.
Proof.
  revert p; induction fuel as [|fuel IH]; intros p H; [lia|].
  cbn [host_loop].
  destruct (read_native_message json os p) as [[v|e] p1] eqn:Hr; [|discriminate].
  destruct (is_None v) eqn:Hn; [discriminate|].
  destruct (answer json os v script_directory p1) as [[u|e] p2] eqn:Ha;
    [|discriminate].
  apply IH. apply answer_stdin in Ha. rewrite Ha.
  pose proof (read_consumes _ _ _ Hr Hn). lia.
Qed.

(** More fuel than needed changes nothing. *)
Lemma host_loop_more_fuel (fuel fuel' : nat) (script_directory : str)
    (p : process os) (r : outcome unit * process os) :
  host_loop json os fuel script_directory p = Some r ->
  (fuel <= fuel')%nat ->
  host_loop json os fuel' script_directory p = Some r.
Proof.
  revert fuel' p; induction fuel as [|fuel IH]; intros fuel' p H Hle;
    [discriminate|].
  destruct fuel' as [|fuel']; [lia|]. cbn [host_loop] in *.
  destruct (read_native_message json os p) as [[v|e] p1]; [|exact H].
  destruct (is_None v); [exact H|].
  destruct (answer json os v script_directory p1) as [[u|e] p2]; [|exact H].
  apply IH; [exact H | lia].
Qed.

(** C10 (amended): when the payload of a well-formed frame is read as a
    value that is neither an object nor [None] (an array, a string, a
    number, a boolean), [run_native_host] stops with [AttributeError]
    raised by the probe of [action], having written no response and run no
    child; when it is read as [None] (the JSON text [null]) the loop ends
    normally, as at the end of the input, again without a response. *)
Theorem non_object_payload (p p1 : process os) (v : value) :
  read_native_message json os p = (Return v, p1) ->
  (forall d, v <> PDict d) ->
  (v <> PNone -> run_native_host json os p = Some (Raise AttributeError, p1)) /\
  (v = PNone -> run_native_host json os p = Some (Return tt, p1)) /\
  stdout p1 = stdout p /\ stdout_buffer p1 = stdout_buffer p /\
  children p1 = children p.
Proof.
  intros Hr Hv. unfold run_native_host. cbn [host_loop]. rewrite Hr.
  split; [|split].
  - intros Hn. destruct v as [| | | | | |d]; try reflexivity;
      [congruence | elim (Hv d eq_refl)].
  - intros ->. reflexivity.
  - rewrite read_native_message_eq in Hr. cbv zeta in Hr.
    repeat match type of Hr with
      | (if ?c then _ else _) = _ => destruct c
      end; injection Hr as _ <-; auto.
Qed.

End Loop.


(** C10 (as stated) fails on the frame of the JSON text [null]: the payload
    is valid JSON and no object, but [read_native_message] returns [None]
    for it, so the loop ends normally and no fault is raised. *)
Lemma null_payload_ends_the_loop :
  let p := @start reeldl_os (frame (ascii_bytes (py "null"))) [] in
  MiniJson.loads (py "null") = Return PNone /\
  run_native_host MiniJson.module reeldl_os p
  = Some (Return tt, @start reeldl_os [] []) /\
  forall p', run_native_host MiniJson.module reeldl_os p
             <> Some (Raise AttributeError, p').
Proof.
  cbv zeta. split; [vm_compute; reflexivity|].
  assert (E : run_native_host MiniJson.module reeldl_os
                (@start reeldl_os (frame (ascii_bytes (py "null"))) [])
              = Some (Return tt, @start reeldl_os [] []))
    by (vm_compute; reflexivity).
  split; [exact E|]. intros p'. rewrite E. discriminate.
Qed.

(** ** The theorems on the sample machine *)

Lemma missing_page_url_witness :
  dispatch reeldl_os (download_request (py "  ")) reeldl_directory
    before_success
  = (Return (response (py "error") (py "Missing page URL for yt-dlp.")),
     before_success).
Proof.
  apply (missing_page_url_is_refused reeldl_os); [reflexivity|].
  right; right. exists (py "  "). split; reflexivity.
Defined.

Lemma absent_downloader_witness :
  (os_name bare_os = py "nt" /\
   resolve_yt_dlp_path bare_os reeldl_directory
   = os_path_join bare_os reeldl_directory (py "yt-dlp.exe")
   \/
   os_name bare_os <> py "nt" /\
   resolve_yt_dlp_path bare_os reeldl_directory
   = os_path_join bare_os reeldl_directory (py "yt-dlp")) /\
  exists message,
    dispatch bare_os (download_request (py "https://x")) reeldl_directory
      (@start bare_os [] [])
    = (Return (response (py "error") message), @start bare_os [] []) /\
    includes (resolve_yt_dlp_path bare_os reeldl_directory) message.
Proof.
  apply (absent_downloader_is_reported bare_os _ (py "https://x"));
    reflexivity.
Defined.

Lemma download_runs_yt_dlp_witness :
  dispatch reeldl_os (download_request (py "https://x")) reeldl_directory
    before_success
  = (Return (response (py "ok") (py "yt-dlp finished downloading the reel.")),
     @Build_process reeldl_os [] [] [] []
       [{| args := [py "/opt/reeldl/yt-dlp"; py "--cookies-from-browser";
                    py "chrome"; py "https://x"];
           cwd := py "/opt/reeldl"; capture_output := true;
           text := true |}]).
Proof.
  exact (download_runs_yt_dlp reeldl_os
           [(py "action", PStr (py "download"));
            (py "pageUrl", PStr (py "https://x"))]
           (py "https://x") reeldl_directory before_success
           eq_refl eq_refl eq_refl eq_refl).
Defined.

Lemma failed_download_witness :
  fst (dispatch reeldl_os (download_request (py "https://x")) reeldl_directory
         before_failure)
  = Return (response (py "error") (py "network error")).
Proof.
  apply (failed_download_reports_output reeldl_os _ (py "https://x")
           reeldl_directory before_failure
           {| returncode := 1; stdout_text := py "partial";
              stderr_text := py " network error " |});
    [reflexivity | reflexivity | reflexivity | reflexivity | reflexivity
    | discriminate].
Defined.

Lemma finished_download_witness :
  fst (dispatch reeldl_os (download_request (py "https://facebook.com/reel/123"))
         reeldl_directory before_success)
  = Return (response (py "ok") (py "yt-dlp finished downloading the reel.")).
Proof.
  apply (finished_download_is_ok reeldl_os _
           (py "https://facebook.com/reel/123") reeldl_directory
           before_success
           {| returncode := 0; stdout_text := py "done"; stderr_text := [] |});
    reflexivity.
Defined.



Lemma non_object_payload_witness :
  (PList [PInt 1; PInt 2] <> PNone ->
   run_native_host MiniJson.module reeldl_os sent_an_array
   = Some (Raise AttributeError, @start reeldl_os [] [])) /\
  (PList [PInt 1; PInt 2] = PNone ->
   run_native_host MiniJson.module reeldl_os sent_an_array
   = Some (Return tt, @start reeldl_os [] [])) /\
  stdout (@start reeldl_os [] []) = stdout sent_an_array /\
  stdout_buffer (@start reeldl_os [] []) = stdout_buffer sent_an_array /\
  children (@start reeldl_os [] []) = children sent_an_array.
Proof.
  apply (non_object_payload MiniJson.module reeldl_os sent_an_array
           (@start reeldl_os [] []) (PList [PInt 1; PInt 2])).
  - vm_compute. reflexivity.
  - discriminate.
Defined.

(** * Further properties of the host *)

(** ** The length prefix *)

(** The prefix of a payload of [n] bytes is four bytes that read back as
    [n]; from 2^32 bytes on there is no prefix, [to_bytes] raises
    [OverflowError]. *)
Theorem length_prefix_round_trip (n : N) :
  (n < 4294967296 ->
   exists raw, to_bytes_little n 4 = Return raw /\
               len raw = 4 /\ from_bytes_little raw = n) /\
  (4294967296 <= n -> to_bytes_little n 4 = Raise OverflowError).
Proof.
  split.
  - intros H. destruct (to_bytes_little_fits n H) as [raw E].
    exists raw. destruct (from_bytes_to_bytes n raw E). auto.
  - apply to_bytes_little_overflow.
Qed.

Lemma little_digits_inj (a b : N) :
  a < 4294967296 -> b < 4294967296 ->
  little_digits 4 a = little_digits 4 b -> a = b.
Proof.
  intros Ha Hb E.
  rewrite <- (from_bytes_little_digits 4 a), <- (from_bytes_little_digits 4 b)
    by assumption.
  now rewrite E.
Qed.

Lemma app_inv_len {A} (a b c d : list A) :
  len a = len b -> a ++ c = b ++ d -> a = b /\ c = d.
Proof.
  intros Hl E.
  assert (Hn : List.length a = List.length b)
    by (unfold len in Hl; now apply Nat2N.inj).
  split.
  - apply (f_equal (firstn (List.length a))) in E.
    rewrite firstn_app, firstn_all, Nat.sub_diag, firstn_O, app_nil_r in E.
    rewrite Hn, firstn_app, firstn_all, Nat.sub_diag, firstn_O, app_nil_r in E.
    exact E.
  - apply (f_equal (skipn (List.length a))) in E.
    rewrite skipn_app, skipn_all, Nat.sub_diag, skipn_O in E.
    rewrite Hn, skipn_app, skipn_all, Nat.sub_diag, skipn_O in E.
    exact E.
Qed.

(** Frames delimit themselves: a stream that starts with a frame starts
    with one frame only, whatever follows, so the peer and the host always
    cut a stream of frames at the same places. *)
Theorem frames_are_unambiguous (body1 body2 rest1 rest2 : bytes) :
  len body1 < 4294967296 ->
  len body2 < 4294967296 ->
  frame body1 ++ rest1 = frame body2 ++ rest2 ->
  body1 = body2 /\ rest1 = rest2.
Proof.
  intros H1 H2 E. unfold frame in E. rewrite <- !app_assoc in E.
  apply app_inv_len in E; [|now rewrite !len_frame_prefix].
  destruct E as [Ep E]. apply little_digits_inj in Ep; try assumption.
  now apply app_inv_len in E.
Qed.

Lemma frames_are_unambiguous_witness :
  ascii_bytes (py "{}") = ascii_bytes (py "{}") /\
  frame (ascii_bytes (py "[]")) = frame (ascii_bytes (py "[]")) ++ [].
Proof.
  apply (frames_are_unambiguous (ascii_bytes (py "{}")) (ascii_bytes (py "{}"))
           (frame (ascii_bytes (py "[]")))
           (frame (ascii_bytes (py "[]")) ++ []));
    [reflexivity | reflexivity | reflexivity].
Defined.

(** ** Reading at the edges of the input *)

Lemma drop_all {A} (n : N) (l : list A) : len l <= n -> drop n l = [].
Proof.
  revert n; induction l as [|x l IH]; intros n H; cbn [drop]; [reflexivity|].
  rewrite len_cons in H. destruct (N.eqb_spec n 0); [lia|].
  apply IH. rewrite <- N.sub_1_r. lia.
Qed.

Section Edges.

Variable json : json_module.
Variable os : os_module.

(** [read_native_message] takes bytes off the input and does nothing else:
    what is left is a suffix of the input, and the output, the machine and
    the child processes are as before, whether it returns or raises. *)
Theorem reading_only_consumes_input (p p1 : process os) (r : outcome value) :
  read_native_message json os p = (r, p1) ->
  p1 = with_stdin p (stdin p1) /\
  exists consumed, stdin p = consumed ++ stdin p1.
Proof.
  rewrite read_native_message_eq. cbv zeta.
  set (L := from_bytes_little (take 4 (stdin p))).
  assert (H4 : stdin p = take 4 (stdin p) ++ drop 4 (stdin p))
    by (symmetry; apply take_drop).
  assert (HL : stdin p = (take 4 (stdin p) ++ take L (drop 4 (stdin p)))
                         ++ drop L (drop 4 (stdin p)))
    by (rewrite <- app_assoc, take_drop; exact H4).
  repeat match goal with
    | |- (if ?c then _ else _) = _ -> _ => destruct c
    end; intros [= _ <-]; (split; [reflexivity|]); cbn [stdin with_stdin];
    eauto.
Qed.

(** What the loop does when the first read gives [None]. *)
Lemma host_loop_no_message (fuel : nat) (script_directory : str)
    (p p1 : process os) :
  read_native_message json os p = (Return PNone, p1) ->
  host_loop json os (S fuel) script_directory p = Some (Return tt, p1).
Proof. intros H. cbn [host_loop]. rewrite H. reflexivity. Qed.

(** When the input ends before a whole prefix (no byte, or one to three
    bytes), the host stops normally: it takes what is left, writes nothing
    and runs nothing. *)
Theorem truncated_prefix_ends_the_host (p : process os) :
  len (stdin p) < 4 ->
  run_native_host json os p = Some (Return tt, with_stdin p []).
Proof.
  intros H. apply host_loop_no_message.
  rewrite read_native_message_eq. cbv zeta.
  destruct (N.ltb_spec (len (stdin p)) 4); [|lia].
  rewrite drop_all by lia. reflexivity.
Qed.

(** A prefix of length zero stops the host normally even when frames
    follow it: they are left unread and get no response. *)
Theorem empty_frame_ends_the_host (p : process os) (rest : bytes) :
  stdin p = [x00; x00; x00; x00] ++ rest ->
  run_native_host json os p = Some (Return tt, with_stdin p rest).
Proof.
  intros H. apply host_loop_no_message.
  rewrite read_native_message_eq. cbv zeta. rewrite H.
  assert (Z4 : len [x00; x00; x00; x00] = 4) by reflexivity.
  rewrite (take_app_len _ _ rest Z4), (drop_app_len _ _ rest Z4), len_app, Z4.
  destruct (N.ltb_spec (4 + len rest) 4); [lia|]. reflexivity.
Qed.

(** When the input ends inside a payload, the host stops normally: the
    incomplete message is dropped without a response. *)
Theorem truncated_payload_ends_the_host (p : process os) :
  4 <= len (stdin p) ->
  len (drop 4 (stdin p)) < from_bytes_little (take 4 (stdin p)) ->
  run_native_host json os p = Some (Return tt, with_stdin p []).
Proof.
  intros H4 HL. apply host_loop_no_message.
  rewrite read_native_message_eq. cbv zeta.
  destruct (N.ltb_spec (len (stdin p)) 4); [lia|].
  destruct (N.eqb_spec (from_bytes_little (take 4 (stdin p))) 0) as [E|E];
    [lia|].
  destruct (N.ltb_spec (len (drop 4 (stdin p)))
              (from_bytes_little (take 4 (stdin p)))); [|lia].
  rewrite drop_all by lia. reflexivity.
Qed.

(** Reading a whole frame, whatever its payload. *)
Lemma read_any_frame (body rest : bytes) (p : process os) :
  stdin p = frame body ++ rest ->
  body <> [] ->
  len body < 4294967296 ->
  read_native_message json os p
  = (match Utf8.decode body with
     | Return decoded => json_loads json decoded
     | Raise e => Raise e
     end, with_stdin p rest).
Proof.
  intros Hin Hne Hl. rewrite read_native_message_eq. cbv zeta.
  rewrite Hin. unfold frame. rewrite <- app_assoc.
  pose proof (len_frame_prefix body) as H4.
  rewrite (take_app_len _ _ _ H4), !(drop_app_len _ _ _ H4).
  rewrite from_bytes_little_digits by exact Hl.
  rewrite !len_app, H4.
  assert (0 < len body)
    by (destruct body; [congruence | rewrite len_cons; lia]).
  destruct (N.ltb_spec (4 + (len body + len rest)) 4); [lia|].
  destruct (N.eqb_spec (len body) 0); [lia|].
  destruct (N.ltb_spec (len body + len rest) (len body)); [lia|].
  now rewrite take_app_exact, drop_app_exact.
Qed.

(** A payload that is not UTF-8, or not JSON, is fatal: the exception of
    the decoding leaves [run_native_host], after the frame was taken off
    the input; no response is written for it and later frames are never
    read. *)
Theorem malformed_payload_stops_the_host (p : process os) (body rest : bytes)
    (e : exn) :
  stdin p = frame body ++ rest ->
  body <> [] ->
  len body < 4294967296 ->
  Utf8.decode body = Raise e \/
  (exists decoded, Utf8.decode body = Return decoded /\
                   json_loads json decoded = Raise e) ->
  run_native_host json os p = Some (Raise e, with_stdin p rest).
Proof.
  intros Hin Hne Hl H. unfold run_native_host. cbn [host_loop].
  rewrite (read_any_frame body rest p Hin Hne Hl).
  destruct H as [-> | (decoded & -> & ->)]; reflexivity.
Qed.

(** The loop makes at most as many turns as there are bytes of input:
    since every call of [subprocess.run] described by the machine returns
    or raises, [run_native_host] has a result on every input, and running
    the loop for longer gives the same result.  (The host sets no
    timeout: while a child runs, the host waits.) *)
Theorem run_native_host_terminates (p : process os) :
  exists r p',
    run_native_host json os p = Some (r, p') /\
    forall fuel, (List.length (stdin p) < fuel)%nat ->
                 host_loop json os fuel (host_directory os) p = Some (r, p').
Proof.
  unfold run_native_host.
  destruct (host_loop json os (S (List.length (stdin p))) (host_directory os) p)
    as [[r p']|] eqn:E.
  - exists r, p'. split; [reflexivity|]. intros fuel H.
    apply (host_loop_more_fuel json os _ _ _ _ _ E). lia.
  - exfalso. revert E. apply host_loop_ends. lia.
Qed.

End Edges.

(** ** Writing *)

Section Writing.

Variable json : json_module.
Variable os : os_module.

(** [send_native_message] writes all of a message or nothing: when it
    returns, the frame of the payload has been added to what was pending
    and everything is flushed; when it raises (the payload does not
    serialize, or is too long for the prefix), not one byte was written and
    the process is as before. *)
Theorem send_is_all_or_nothing (payload : value) (p : process os) :
  (exists body,
      send_native_message json os payload p
      = (Return tt,
         {| stdin := stdin p;
            stdout := stdout p ++ stdout_buffer p ++ frame body;
            stdout_buffer := []; machine := machine p;
            children := children p |}) /\
      len body < 4294967296 /\
      exists text, json_dumps json payload = Return text /\
                   Utf8.encode text = Return body) \/
  (exists e, send_native_message json os payload p = (Raise e, p)).
Proof.
  destruct (send_cases json os payload p)
    as [(text & body & Hd & He & Hl & Hs) | H].
  - left. exists body. split; [exact Hs|]. split; [exact Hl|]. eauto.
  - right. exact H.
Qed.

End Writing.

(** ** The dispatcher, case by case *)

Lemma response_inj (s1 m1 s2 m2 : str) :
  response s1 m1 = response s2 m2 -> s1 = s2 /\ m1 = m2.
Proof. unfold response. intros [= -> ->]. auto. Qed.

Lemma Return_inj {A} (a b : A) : Return a = Return b -> a = b.
Proof. intros [= ->]. reflexivity. Qed.

(** Splits an equation between two results of a computation. *)
Ltac split_result H Hp := apply pair_equal_spec in H as [H Hp].

(** The same when the result comes from the call of [subprocess.run]. *)
Ltac split_run_result H Hp R :=
  apply pair_equal_spec in H as [H Hp];
  match type of H with
  | match ?r with _ => _ end = _ =>
      destruct r as [?completed|?e] eqn:R; [|discriminate H]
  end.

Lemma str_or_nonempty (a b : str) : b <> [] -> str_or a b <> [].
Proof. intros H. destruct a; cbn; [exact H | discriminate]. Qed.

Section Cases.

Variable json : json_module.
Variable os : os_module.

(** Fields other than [action] and [pageUrl] are ignored: two messages
    that agree on these two get the same response, with the same effects. *)
Theorem other_fields_are_ignored (d1 d2 : dict) (script_directory : str)
    (p : process os) :
  dict_get d1 (py "action") = dict_get d2 (py "action") ->
  dict_get d1 (py "pageUrl") = dict_get d2 (py "pageUrl") ->
  dispatch os (PDict d1) script_directory p
  = dispatch os (PDict d2) script_directory p.
Proof.
  intros Ha Hu. unfold dispatch, handle_download_request, bind, lift.
  cbn [py_get]. now rewrite Ha, Hu.
Qed.

(** No response has an empty message: the fixed texts are not empty, and
    an empty output of a failed [yt-dlp] is replaced by the fallback. *)
Theorem response_message_is_never_empty (d : dict)
    (script_directory status message : str) (p p' : process os) :
  dispatch os (PDict d) script_directory p
  = (Return (response status message), p') ->
  message <> [].
Proof.
  intros H.
  destruct (dispatch_cases os d script_directory p)
    as [(_ & E) | [(_ & _ & E) | [(url & _ & _ & _ & _ & E)
                                 | (url & _ & _ & _ & _ & E)]]];
    rewrite E in H.
  1-3: split_result H Hp; apply Return_inj, response_inj in H as [_ <-];
    discriminate.
  split_run_result H Hp R. apply Return_inj in H. unfold run_reply in H.
  destruct (returncode _ =? 0)%Z; apply response_inj in H as [_ <-];
    [discriminate|].
  apply str_or_nonempty. discriminate.
Qed.

(** The host reports success only for a download it has run: a response
    of status [ok] means that the request carried a usable page URL, that
    the downloader was there, that exactly this one child process was run
    and that it exited with status 0. *)
Theorem ok_means_yt_dlp_succeeded (d : dict) (script_directory message : str)
    (p p' : process os) :
  dispatch os (PDict d) script_directory p
  = (Return (response (py "ok") message), p') ->
  exists url completed,
    dict_get d (py "action") = PStr (py "download") /\
    dict_get d (py "pageUrl") = PStr url /\ blank url = false /\
    os_path_exists os (machine p) (resolve_yt_dlp_path os script_directory)
    = true /\
    fst (subprocess_run os (machine p) (yt_dlp_call os script_directory url))
    = Return completed /\
    returncode completed = 0%Z /\
    children p' = children p ++ [yt_dlp_call os script_directory url] /\
    message = py "yt-dlp finished downloading the reel.".
Proof.
  intros H.
  destruct (dispatch_cases os d script_directory p)
    as [(_ & E) | [(_ & _ & E) | [(url & _ & _ & _ & _ & E)
                                 | (url & Ha & Hu & B & Hx & E)]]];
    rewrite E in H.
  1-3: split_result H Hp; apply Return_inj, response_inj in H as [H _];
    discriminate H.
  split_run_result H Hp R. apply Return_inj in H.
  exists url, completed. unfold run_reply in H.
  destruct (returncode completed =? 0)%Z eqn:Hc;
    apply response_inj in H as [Hs Hm]; [|discriminate Hs].
  apply Z.eqb_eq in Hc. subst p'. repeat split; auto.
Qed.

(** A message starts at most one child process, and a child process is
    always the downloader next to the host, run in the host's directory on
    a page URL that is a string and not blank. *)
Theorem at_most_one_child_per_message (d : dict) (script_directory : str)
    (p p' : process os) (reply : value) :
  dispatch os (PDict d) script_directory p = (Return reply, p') ->
  children p' = children p \/
  exists url,
    dict_get d (py "pageUrl") = PStr url /\ blank url = false /\
    children p'
    = children p
      ++ [{| args := [os_path_join os script_directory
                        (if str_eqb (os_name os) (py "nt")
                         then py "yt-dlp.exe" else py "yt-dlp");
                      py "--cookies-from-browser"; py "chrome"; url];
             cwd := script_directory; capture_output := true;
             text := true |}].
Proof.
  intros H.
  destruct (dispatch_cases os d script_directory p)
    as [(_ & E) | [(_ & _ & E) | [(url & _ & _ & _ & _ & E)
                                 | (url & Ha & Hu & B & Hx & E)]]];
    rewrite E in H; split_result H Hp; subst p'; auto.
  right. exists url. auto.
Qed.

End Cases.

(** ** Whole turns and whole runs *)

Section Runs.

Variable json : json_module.
Variable os : os_module.

(** One whole turn of the loop: a frame with a message is read, the
    message is dispatched, the frame of the response is written and
    flushed, and the loop goes on with the rest of the input. *)
Theorem one_turn_of_the_loop (fuel : nat) (p p2 : process os)
    (body rest reply_body : bytes) (decoded reply_text : str) (d : dict)
    (reply : value) :
  stdin p = frame body ++ rest ->
  body <> [] ->
  len body < 4294967296 ->
  Utf8.decode body = Return decoded ->
  json_loads json decoded = Return (PDict d) ->
  dispatch os (PDict d) (host_directory os) (with_stdin p rest)
  = (Return reply, p2) ->
  json_dumps json reply = Return reply_text ->
  Utf8.encode reply_text = Return reply_body ->
  len reply_body < 4294967296 ->
  host_loop json os (S fuel) (host_directory os) p
  = host_loop json os fuel (host_directory os)
      (having_written p2 (frame reply_body)).
Proof.
  intros Hin Hne Hl Hdec Hload Hdis Hdump Henc Hfit.
  cbn [host_loop].
  rewrite (read_any_frame json os body rest p Hin Hne Hl), Hdec, Hload.
  cbn [is_None]. unfold answer, bind. rewrite Hdis.
  rewrite (send_writes_frame json os reply reply_text reply_body p2
             Hdump Henc Hfit).
  reflexivity.
Qed.

(** An exception of [subprocess.run] is fatal: for a download request
    with a usable page URL whose downloader exists, when the call raises
    (a NUL character in the URL, a file that may not be executed, output
    that is not text), the exception ends [run_native_host] after the
    call; no response is written for the request and the frames after it
    are never read. *)
Theorem raising_child_stops_the_host (p : process os) (body rest : bytes)
    (decoded url : str) (d : dict) (e : exn) :
  stdin p = frame body ++ rest ->
  body <> [] ->
  len body < 4294967296 ->
  Utf8.decode body = Return decoded ->
  json_loads json decoded = Return (PDict d) ->
  dict_get d (py "action") = PStr (py "download") ->
  dict_get d (py "pageUrl") = PStr url ->
  blank url = false ->
  os_path_exists os (machine p) (resolve_yt_dlp_path os (host_directory os))
  = true ->
  fst (subprocess_run os (machine p) (yt_dlp_call os (host_directory os) url))
  = Raise e ->
  run_native_host json os p
  = Some (Raise e,
          {| stdin := rest; stdout := stdout p;
             stdout_buffer := stdout_buffer p;
             machine :=
               snd (subprocess_run os (machine p)
                      (yt_dlp_call os (host_directory os) url));
             children :=
               children p ++ [yt_dlp_call os (host_directory os) url] |}).
Proof.
  intros Hin Hne Hl Hdec Hload Ha Hu B Hx Hr.
  unfold run_native_host. cbn [host_loop].
  rewrite (read_any_frame json os body rest p Hin Hne Hl), Hdec, Hload.
  cbn [is_None]. unfold answer, bind.
  rewrite (dispatch_download os d _ _ Ha), (handle_valid os d url _ _ Hu B).
  cbv zeta. cbn [machine with_stdin]. rewrite Hx, Hr. reflexivity.
Qed.

(** What one answer adds to the output and to the child processes. *)
Lemma answer_effects (v : value) (script_directory : str)
    (p p' : process os) (r : outcome unit) :
  answer json os v script_directory p = (r, p') ->
  (exists calls,
      children p' = children p ++ calls /\
      Forall (is_yt_dlp_call os script_directory) calls) /\
  (stdout_buffer p = [] ->
   exists bodies,
     stdout p' = stdout p ++ List.concat (List.map frame bodies) /\
     stdout_buffer p' = [] /\
     Forall (fun body => len body < 4294967296) bodies).
Proof.
  intros H. unfold answer, bind in H.
  assert (Hnone : forall q : process os,
             (exists calls, children q = children q ++ calls /\
                            Forall (is_yt_dlp_call os script_directory) calls) /\
             (stdout_buffer q = [] ->
              exists bodies,
                stdout q = stdout q ++ List.concat (List.map frame bodies) /\
                stdout_buffer q = [] /\
                Forall (fun body => len body < 4294967296) bodies)).
  { intros q. split.
    - exists []. now rewrite app_nil_r.
    - intros Hb. exists []. cbn. now rewrite app_nil_r. }
  destruct v as [| | | | | |d];
    try (unfold dispatch, bind, lift in H; cbn [py_get] in H;
         apply pair_equal_spec in H as [_ <-]; apply Hnone).
  assert (Hd : exists result p2,
             dispatch os (PDict d) script_directory p = (result, p2) /\
             stdout p2 = stdout p /\ stdout_buffer p2 = stdout_buffer p /\
             exists calls, children p2 = children p ++ calls /\
                           Forall (is_yt_dlp_call os script_directory) calls).
  { destruct (dispatch_cases os d script_directory p)
      as [(_ & E) | [(_ & _ & E) | [(url & _ & _ & _ & _ & E)
                                   | (url & _ & _ & B & _ & E)]]];
      rewrite E; do 2 eexists; (split; [reflexivity|]);
      (split; [reflexivity|]); (split; [reflexivity|]).
    1-3: exists []; now rewrite app_nil_r.
    exists [yt_dlp_call os script_directory url]. split; [reflexivity|].
    constructor; [|constructor]. exists url. auto. }
  destruct Hd as (result & p2 & Hd & Ho & Hb & calls & Hc & Hf).
  rewrite Hd in H. destruct result as [reply|e0].
  2: { apply pair_equal_spec in H as [_ <-].
       split; [exists calls; auto|]. intros Hb0.
       exists []. cbn. rewrite Ho, Hb, app_nil_r. auto. }
  destruct (send_cases json os reply p2)
    as [(rtext & rbody & _ & _ & Hl & Hs) | (e & Hs)];
    rewrite Hs in H; apply pair_equal_spec in H as [_ <-].
  - split; [exists calls; auto|]. intros Hb0.
    exists [rbody]. cbn [having_written stdout stdout_buffer List.map List.concat].
    rewrite Ho, Hb, Hb0, app_nil_r. repeat split; auto.
  - split; [exists calls; auto|]. intros Hb0.
    exists []. cbn. rewrite Ho, Hb, app_nil_r. auto.
Qed.

Lemma read_keeps_the_rest (p p1 : process os) (r : outcome value) :
  read_native_message json os p = (r, p1) ->
  stdout p1 = stdout p /\ stdout_buffer p1 = stdout_buffer p /\
  children p1 = children p.
Proof.
  rewrite read_native_message_eq. cbv zeta.
  repeat match goal with
    | |- (if ?c then _ else _) = _ -> _ => destruct c
    end; intros [= _ <-]; auto.
Qed.

Lemma host_loop_effects (fuel : nat) (script_directory : str)
    (p p' : process os) (r : outcome unit) :
  host_loop json os fuel script_directory p = Some (r, p') ->
  (exists calls,
      children p' = children p ++ calls /\
      Forall (is_yt_dlp_call os script_directory) calls) /\
  (stdout_buffer p = [] ->
   exists bodies,
     stdout p' = stdout p ++ List.concat (List.map frame bodies) /\
     stdout_buffer p' = [] /\
     Forall (fun body => len body < 4294967296) bodies).
Proof.
  revert p; induction fuel as [|fuel IH]; intros p H; [discriminate|].
  cbn [host_loop] in H.
  destruct (read_native_message json os p) as [[v|e] p1] eqn:Hr.
  2: { injection H as _ <-. apply read_keeps_the_rest in Hr as (Ho & Hb & Hc).
       split.
       - exists []. now rewrite app_nil_r.
       - intros Hb0. exists []. cbn. rewrite Ho, Hb, app_nil_r. auto. }
  apply read_keeps_the_rest in Hr as (Ho & Hb & Hc).
  destruct (is_None v).
  { injection H as _ <-. split.
    - exists []. now rewrite app_nil_r.
    - intros Hb0. exists []. cbn. rewrite Ho, Hb, app_nil_r. auto. }
  destruct (answer json os v script_directory p1) as [[u|e] p2] eqn:Ha;
    apply answer_effects in Ha as ((calls & Hc2 & Hf2) & Hout).
  - apply IH in H as ((calls' & Hc3 & Hf3) & Hout'). split.
    + exists (calls ++ calls'). split; [|now apply Forall_app].
      now rewrite Hc3, Hc2, Hc, app_assoc.
    + intros Hb0. rewrite Hb0 in Hb.
      destruct (Hout Hb) as (bodies & Hs & Hbuf & Hfit).
      destruct (Hout' Hbuf) as (bodies' & Hs' & Hbuf' & Hfit').
      exists (bodies ++ bodies'). split; [|split; [exact Hbuf'|]].
      * now rewrite Hs', Hs, Ho, map_app, concat_app, app_assoc.
      * now apply Forall_app.
  - injection H as _ <-. split.
    + exists calls. split; [|exact Hf2]. now rewrite Hc2, Hc.
    + intros Hb0. rewrite Hb0 in Hb.
      destruct (Hout Hb) as (bodies & Hs & Hbuf & Hfit).
      exists bodies. rewrite Hs, Ho. auto.
Qed.

(** Whatever the input, the output of a run is a sequence of whole frames,
    each with a payload that fits its prefix, and all of it is flushed:
    the host never leaves a partial or pending frame, also when it stops on
    a fault. *)
Theorem output_is_a_sequence_of_frames (p p' : process os)
    (r : outcome unit) :
  stdout_buffer p = [] ->
  run_native_host json os p = Some (r, p') ->
  exists bodies,
    stdout p' = stdout p ++ List.concat (List.map frame bodies) /\
    stdout_buffer p' = [] /\
    Forall (fun body => len body < 4294967296) bodies.
Proof.
  intros Hb H. now apply (host_loop_effects _ _ _ _ _ H).
Qed.

(** Whatever the input, every child process of a run is the downloader
    next to the host ([yt-dlp], or [yt-dlp.exe] on [nt]) with the
    arguments [--cookies-from-browser chrome] and a page URL that is not
    blank, run in the host's directory: the host runs no other program and
    passes nothing else of a message to it. *)
Theorem only_yt_dlp_is_run (p p' : process os) (r : outcome unit) :
  run_native_host json os p = Some (r, p') ->
  exists calls,
    children p' = children p ++ calls /\
    Forall (fun call =>
              exists page_url,
                blank page_url = false /\
                call = {| args := [resolve_yt_dlp_path os (host_directory os);
                                   py "--cookies-from-browser"; py "chrome";
                                   page_url];
                          cwd := host_directory os;
                          capture_output := true; text := true |})
           calls.
Proof.
  intros H. exact (proj1 (host_loop_effects _ _ _ _ _ H)).
Qed.

End Runs.

(** ** The further properties on the sample machine *)

Lemma reading_only_consumes_witness :
  @start reeldl_os [] [] = with_stdin pinged (stdin (@start reeldl_os [] [])) /\
  exists consumed, stdin pinged = consumed ++ stdin (@start reeldl_os [] []).
Proof.
  apply (reading_only_consumes_input MiniJson.module reeldl_os pinged
           (@start reeldl_os [] []) (Return ping)).
  vm_compute. reflexivity.
Defined.

Lemma truncated_prefix_witness :
  run_native_host MiniJson.module reeldl_os cut_in_prefix
  = Some (Return tt, with_stdin cut_in_prefix []).
Proof.
  apply (truncated_prefix_ends_the_host MiniJson.module reeldl_os cut_in_prefix).
  reflexivity.
Defined.

Lemma empty_frame_witness :
  run_native_host MiniJson.module reeldl_os empty_then_ping
  = Some (Return tt,
          with_stdin empty_then_ping
            (frame (ascii_bytes (json_text "{'action':'ping'}")))).
Proof.
  apply (empty_frame_ends_the_host MiniJson.module reeldl_os empty_then_ping).
  reflexivity.
Defined.

Lemma truncated_payload_witness :
  run_native_host MiniJson.module reeldl_os cut_in_payload
  = Some (Return tt, with_stdin cut_in_payload []).
Proof.
  apply (truncated_payload_ends_the_host MiniJson.module reeldl_os
           cut_in_payload); vm_compute; [discriminate | reflexivity].
Defined.

Lemma malformed_payload_witness :
  run_native_host MiniJson.module reeldl_os garbage_then_ping
  = Some (Raise JSONDecodeError,
          with_stdin garbage_then_ping
            (frame (ascii_bytes (json_text "{'action':'ping'}")))).
Proof.
  apply (malformed_payload_stops_the_host MiniJson.module reeldl_os
           garbage_then_ping (ascii_bytes (py "{oops"))).
  - reflexivity.
  - discriminate.
  - reflexivity.
  - right. exists (py "{oops"). split; vm_compute; reflexivity.
Defined.

Lemma other_fields_witness :
  dispatch reeldl_os (PDict download_with_extras) reeldl_directory before_success
  = dispatch reeldl_os (download_request (py "https://x")) reeldl_directory
      before_success.
Proof.
  apply (other_fields_are_ignored reeldl_os); reflexivity.
Defined.

Lemma response_message_witness : py "network error" <> [].
Proof.
  apply (response_message_is_never_empty reeldl_os
           [(py "action", PStr (py "download"));
            (py "pageUrl", PStr (py "https://x"))]
           reeldl_directory (py "error") (py "network error") before_failure
           (having_run before_failure
              (yt_dlp_call reeldl_os reeldl_directory (py "https://x")))).
  vm_compute. reflexivity.
Defined.

Lemma ok_means_success_witness :
  exists url completed,
    dict_get download_with_extras (py "action") = PStr (py "download") /\
    dict_get download_with_extras (py "pageUrl") = PStr url /\
    blank url = false /\
    os_path_exists reeldl_os (machine before_success)
      (resolve_yt_dlp_path reeldl_os reeldl_directory) = true /\
    fst (subprocess_run reeldl_os (machine before_success)
           (yt_dlp_call reeldl_os reeldl_directory url))
    = Return completed /\
    returncode completed = 0%Z /\
    children (having_run before_success
                (yt_dlp_call reeldl_os reeldl_directory (py "https://x")))
    = children before_success ++ [yt_dlp_call reeldl_os reeldl_directory url] /\
    py "yt-dlp finished downloading the reel."
    = py "yt-dlp finished downloading the reel.".
Proof.
  apply (ok_means_yt_dlp_succeeded reeldl_os download_with_extras
           reeldl_directory (py "yt-dlp finished downloading the reel.")
           before_success).
  vm_compute. reflexivity.
Defined.

Lemma at_most_one_child_witness :
  children (having_run before_success
              (yt_dlp_call reeldl_os reeldl_directory (py "https://x")))
  = children before_success \/
  exists url,
    dict_get download_with_extras (py "pageUrl") = PStr url /\
    blank url = false /\
    children (having_run before_success
                (yt_dlp_call reeldl_os reeldl_directory (py "https://x")))
    = children before_success
      ++ [{| args := [os_path_join reeldl_os reeldl_directory
                        (if str_eqb (os_name reeldl_os) (py "nt")
                         then py "yt-dlp.exe" else py "yt-dlp");
                      py "--cookies-from-browser"; py "chrome"; url];
             cwd := reeldl_directory; capture_output := true;
             text := true |}].
Proof.
  apply (at_most_one_child_per_message reeldl_os download_with_extras
           reeldl_directory before_success _
           (response (py "ok") (py "yt-dlp finished downloading the reel."))).
  vm_compute. reflexivity.
Defined.

Lemma one_turn_witness :
  host_loop MiniJson.module reeldl_os 3 (host_directory reeldl_os) two_requests
  = host_loop MiniJson.module reeldl_os 2 (host_directory reeldl_os)
      (having_written
         (having_run
            (with_stdin two_requests
               (frame (ascii_bytes (json_text "{'action':'ping'}"))))
            (yt_dlp_call reeldl_os reeldl_directory (py "https://x")))
         (frame (ascii_bytes
                   (json_text
                      "{'status': 'ok', 'message': 'yt-dlp finished downloading the reel.'}")))).
Proof.
  apply (one_turn_of_the_loop MiniJson.module reeldl_os 2 two_requests _
           (ascii_bytes
              (json_text "{'action':'download','pageUrl':'https://x'}"))
           (frame (ascii_bytes (json_text "{'action':'ping'}")))
           _
           (json_text "{'action':'download','pageUrl':'https://x'}")
           (json_text
              "{'status': 'ok', 'message': 'yt-dlp finished downloading the reel.'}")
           [(py "action", PStr (py "download"));
            (py "pageUrl", PStr (py "https://x"))]
           (response (py "ok") (py "yt-dlp finished downloading the reel."))).
  - reflexivity.
  - discriminate.
  - reflexivity.
  - vm_compute. reflexivity.
  - vm_compute. reflexivity.
  - vm_compute. reflexivity.
  - vm_compute. reflexivity.
  - vm_compute. reflexivity.
  - reflexivity.
Defined.

Lemma output_frames_witness :
  exists r p',
    run_native_host MiniJson.module reeldl_os two_requests = Some (r, p') /\
    exists bodies,
      stdout p' = stdout two_requests ++ List.concat (List.map frame bodies) /\
      stdout_buffer p' = [] /\
      Forall (fun body => len body < 4294967296) bodies.
Proof.
  eexists. eexists. split; [vm_compute; reflexivity|].
  apply (output_is_a_sequence_of_frames MiniJson.module reeldl_os two_requests
           _ (Return tt)); [reflexivity | vm_compute; reflexivity].
Defined.

Lemma only_yt_dlp_witness :
  exists r p',
    run_native_host MiniJson.module reeldl_os two_requests = Some (r, p') /\
    exists calls,
      children p' = children two_requests ++ calls /\
      Forall (fun call =>
                exists page_url,
                  blank page_url = false /\
                  call = {| args := [resolve_yt_dlp_path reeldl_os
                                       (host_directory reeldl_os);
                                     py "--cookies-from-browser"; py "chrome";
                                     page_url];
                            cwd := host_directory reeldl_os;
                            capture_output := true; text := true |})
             calls.
Proof.
  eexists. eexists. split; [vm_compute; reflexivity|].
  apply (only_yt_dlp_is_run MiniJson.module reeldl_os two_requests _
           (Return tt)). vm_compute. reflexivity.
Defined.

Lemma raising_child_witness :
  run_native_host MiniJson.module reeldl_os before_refusal
  = Some (Raise PermissionError,
          @Build_process reeldl_os
            (frame (ascii_bytes (json_text "{'action':'ping'}"))) [] [] []
            [yt_dlp_call reeldl_os (host_directory reeldl_os)
               (py "https://x")]).
Proof.
  apply (raising_child_stops_the_host MiniJson.module reeldl_os before_refusal
           (ascii_bytes
              (json_text "{'action':'download','pageUrl':'https://x'}"))
           (frame (ascii_bytes (json_text "{'action':'ping'}")))
           (json_text "{'action':'download','pageUrl':'https://x'}")
           (py "https://x")
           [(py "action", PStr (py "download"));
            (py "pageUrl", PStr (py "https://x"))]
           PermissionError).
  - reflexivity.
  - discriminate.
  - reflexivity.
  - vm_compute. reflexivity.
  - vm_compute. reflexivity.
  - reflexivity.
  - reflexivity.
  - reflexivity.
  - reflexivity.
  - reflexivity.
Defined.
